(** * Waterfall decomposition: the orchestrator of [algo.py]

    A shallow embedding of [BaseAlgorithm] (constructor, apply-and-save,
    dimension pruning, correction step, run loop) and the properties of its
    bookkeeping: conservation checks, the cumulative ratio, pruning, the
    single-use guard and the ordering of pre-selected blocks.

    Python floats are IEEE binary64 numbers: they are Rocq's primitive floats,
    with the same operations.  Exceptions leave the object as mutated so far:
    a method is a function from the object to the object it leaves, what it
    sent to the log sinks, and either the exception raised or the value
    returned. *)

From Stdlib Require Import List String ZArith Bool Lia Floats.
Import ListNotations.

Local Open Scope string_scope.
Local Open Scope list_scope.

(** ** Python values shared by the whole module *)

(** The exceptions the module can raise.  [NotImplementedError] is never
    raised by the code below: it is here so that a statement can say so.
    [Raised] stands for whatever a selection strategy may raise. *)
Inductive PyExc : Type :=
| AssertionError
| TypeError (msg : string)
| NotImplementedError (msg : string)
| Raised (msg : string).

(** [m * 2^52], bit by bit: the mantissa of a float multiplied by the
    mantissa of [1.0]. *)
Definition shift52 (m : positive) : positive :=
  Eval cbv in (fun m => Pos.iter xO m 52) m.

(** [range(lo, hi)] over Python integers: empty when [hi <= lo]. *)
Definition py_range (lo hi : Z) : list Z :=
  map (fun k => (lo + Z.of_nat k)%Z) (seq 0 (Z.to_nat (hi - lo))).

(** Truth value of a Python string: the empty string is false. *)
Definition str_truthy (s : string) : bool :=
  match s with EmptyString => false | _ => true end.

(** The line terminator ['\n']. *)
Definition newline : string := String (Ascii.ascii_of_nat 10) EmptyString.

(** [NotImplemented] is a constant, not an exception class: the call
    [NotImplemented(args)] evaluates its arguments and then fails, because
    the object is not callable. *)
Definition call_NotImplemented (args : list string) : PyExc :=
  TypeError "'NotImplementedType' object is not callable".

(** [_("Correction method {} is not implemented").format(mode)] *)
Definition not_implemented_message (mode : string) : string :=
  "Correction method " ++ mode ++ " is not implemented".

(** An entry of a [ValueList]: an internal value and its description. *)
Record Value : Type := mkValue { value_code : string; value_label : string }.

Definition CORRECT_MODES : list Value :=
  [ mkValue "DEL" "Supprime tous les elements du bloc" ].

(** Modelled from the spec: the membership test [x in value_list] of the
    enumerated-choice collaborator ([ValueList.__contains__], module
    [value_list], not in the sources): [x] is one of the named options. *)
Definition value_list_contains (vl : list Value) (x : string) : bool :=
  existsb (fun v => String.eqb (value_code v) x) vl.

(** ** The data model *)

(** The types the collaborators work on: the fact table, a key-set
    (dimension to value), a block-type tag, a measure selector and the value
    of a dimension column. *)
Class Tables : Type := {
  DataFrame : Type;
  Keys : Type;
  BlockType : Type;
  Measure : Type;
  Cell : Type
}.

Section DataModel.

Context {T : Tables}.

(** An item of [params.pre_selected_blocks]: only [keys] and [block_type]
    are read. *)
Record InputBlock : Type := mkInputBlock {
  ib_keys : Keys;
  ib_block_type : BlockType
}.

(** [AlgoBlock]: the aggregate of a key-set over a dataframe, against a
    parent aggregate.  [None] is Python's [None] (an argument left to its
    default). *)
#[warnings="-register-all"]
Inductive AlgoBlock : Type :=
  mkAlgoBlock (keys : option Keys) (block_type : option BlockType)
              (parent : option AlgoBlock)
              (cur_revenue ref_revenue cur_profit ref_profit contrib_bps : float).

Definition keys (b : AlgoBlock) := let '(mkAlgoBlock k _ _ _ _ _ _ _) := b in k.
Definition block_type (b : AlgoBlock) := let '(mkAlgoBlock _ t _ _ _ _ _ _) := b in t.
Definition parent (b : AlgoBlock) := let '(mkAlgoBlock _ _ p _ _ _ _ _) := b in p.
Definition cur_revenue (b : AlgoBlock) := let '(mkAlgoBlock _ _ _ x _ _ _ _) := b in x.
Definition ref_revenue (b : AlgoBlock) := let '(mkAlgoBlock _ _ _ _ x _ _ _) := b in x.
Definition cur_profit (b : AlgoBlock) := let '(mkAlgoBlock _ _ _ _ _ x _ _) := b in x.
Definition ref_profit (b : AlgoBlock) := let '(mkAlgoBlock _ _ _ _ _ _ x _) := b in x.
Definition contrib_bps (b : AlgoBlock) := let '(mkAlgoBlock _ _ _ _ _ _ _ x) := b in x.

(** The five numbers the aggregation computes for a block. *)
Record Aggregate : Type := mkAggregate {
  agg_cur_revenue : float;
  agg_ref_revenue : float;
  agg_cur_profit : float;
  agg_ref_profit : float;
  agg_contrib_bps : float
}.

(** [SavedBlock]: a snapshot of a block's fields; [contrib_bps] is
    overwritten by the caller with the scaled contribution. *)
Record SavedBlock : Type := mkSavedBlock {
  sb_keys : option Keys;
  sb_block_type : option BlockType;
  sb_cur_revenue : float;
  sb_ref_revenue : float;
  sb_cur_profit : float;
  sb_ref_profit : float;
  sb_contrib_bps : float
}.

(** Modelled from the spec: [SavedBlock.from_block] (module [block], not in
    the sources) is an immutable copy of the block's fields. *)
Definition from_block (b : AlgoBlock) : SavedBlock :=
  mkSavedBlock (keys b) (block_type b) (cur_revenue b) (ref_revenue b)
               (cur_profit b) (ref_profit b) (contrib_bps b).

Definition set_contrib_bps (sb : SavedBlock) (x : float) : SavedBlock :=
  mkSavedBlock (sb_keys sb) (sb_block_type sb) (sb_cur_revenue sb)
               (sb_ref_revenue sb) (sb_cur_profit sb) (sb_ref_profit sb) x.

(** The fields of [AlgorithmParameters] the orchestrator reads.
    [input_dims] is [input_parameters.dims]. *)
Record AlgorithmParameters : Type := mkAlgorithmParameters {
  input_dims : list string;
  param_pre_selected_blocks : list InputBlock;
  waterfall_title : string;
  max_block_number : Z;
  param_correct_mode : string;
  profit_measure : Measure
}.

(** The attributes of a [BaseAlgorithm] object. *)
Record BaseAlgorithm : Type := mkBaseAlgorithm {
  df : DataFrame;
  correct_mode : string;
  params : AlgorithmParameters;
  ratio_to_initial : float;
  global_block : AlgoBlock;
  saved_global_block : SavedBlock;
  dims : list string;
  pre_selected_blocks : list SavedBlock;
  blocks : list SavedBlock
}.

(** The value [run] returns. *)
Record Waterfall : Type := mkWaterfall {
  wf_title : string;
  wf_dims : list string;
  wf_cur_label : string;
  wf_ref_label : string;
  wf_global_block : SavedBlock;
  wf_blocks : list SavedBlock;
  wf_first_blocks : list SavedBlock
}.

(** What the module sends out: the records of the module logger [_l] (the
    arguments of each [_l.info] call, before formatting) and the lines
    written to the optional [log_file]. *)
Inductive Event : Type :=
| LogBlock (index : Z) (contrib : float) (type_repr : string)
           (percent : float) (k : option Keys)
| LogDimIgnored (d : string)
| LogNoBlock (i : Z)
| FileWrite (line : string).

End DataModel.

(** ** The collaborators *)

(** The modules [algo_block], [block] and [utils], which are imported and
    not part of this file. *)
Class Collaborators {T : Tables} : Type := {
  (** The arithmetic of [AlgoBlock(df, profit_meas, keys, block_type, parent)]. *)
  aggregate :
    DataFrame -> Measure -> option Keys -> option BlockType -> option AlgoBlock -> Aggregate;
  (** [out_block(df, b)]: the rows of [df] that do not match [b]. *)
  out_block : DataFrame -> AlgoBlock -> DataFrame;
  (** [df[d].unique()] *)
  unique : DataFrame -> string -> list Cell;
  (** [utils.float_eq] *)
  float_eq : float -> float -> bool;
  (** [==] on two blocks ([AlgoBlock.__eq__]). *)
  block_eq : AlgoBlock -> AlgoBlock -> bool;
  (** [SavedBlock.block_type_repr] *)
  block_type_repr : SavedBlock -> string
}.

(** The selection strategy of a subclass.  Modelled from the spec:
    [find_next_block(index, log_file)] is abstract in [BaseAlgorithm] (it
    raises); an implementation reads the object, may write lines to the log
    file, and returns a block or [None], or raises.  The boolean tells
    whether a log file was passed.  [log_file_caption()] is [None] in the
    base class and a string in a subclass. *)
Class Strategy {T : Tables} : Type := {
  find_next_block :
    BaseAlgorithm -> Z -> bool -> list string * (PyExc + option AlgoBlock);
  log_file_caption : BaseAlgorithm -> option string
}.

(** ** The orchestrator *)

Section Orchestrator.

Context {T : Tables} {C : Collaborators} {St : Strategy}.

Definition new_AlgoBlock (d : DataFrame) (pm : Measure) (k : option Keys)
           (t : option BlockType) (p : option AlgoBlock) : AlgoBlock :=
  let a := aggregate d pm k t p in
  mkAlgoBlock k t p (agg_cur_revenue a) (agg_ref_revenue a)
              (agg_cur_profit a) (agg_ref_profit a) (agg_contrib_bps a).

(** [b.parent == gb]: [None] equals no block. *)
Definition parent_is (b gb : AlgoBlock) : bool :=
  match parent b with
  | Some p => block_eq p gb
  | None => false
  end.

(** *** Methods: state, output and exceptions *)

Definition M (A : Type) : Type :=
  BaseAlgorithm -> BaseAlgorithm * list Event * (PyExc + A).

Definition ret {A} (a : A) : M A := fun s => (s, [], inr a).

Definition bind {A B} (m : M A) (k : A -> M B) : M B :=
  fun s =>
    match m s with
    | (s1, out1, inl e) => (s1, out1, inl e)
    | (s1, out1, inr a) =>
        let '(s2, out2, r) := k a s1 in (s2, out1 ++ out2, r)
    end.

Definition raise {A} (e : PyExc) : M A := fun s => (s, [], inl e).
Definition py_assert (c : bool) : M unit :=
  if c then ret tt else raise AssertionError.
Definition get : M BaseAlgorithm := fun s => (s, [], inr s).
Definition emit (e : Event) : M unit := fun s => (s, [e], inr tt).

Notation "x <- m ;; k" := (bind m (fun x => k))
  (at level 61, m at next level, right associativity).
Notation "m ;; k" := (bind m (fun _ => k))
  (at level 61, right associativity).

(** Attribute assignments. *)
Definition set_dims (ds : list string) (s : BaseAlgorithm) : BaseAlgorithm :=
  mkBaseAlgorithm (df s) (correct_mode s) (params s) (ratio_to_initial s)
    (global_block s) (saved_global_block s) ds
    (pre_selected_blocks s) (blocks s).

Definition set_ratio_to_initial (x : float) (s : BaseAlgorithm) : BaseAlgorithm :=
  mkBaseAlgorithm (df s) (correct_mode s) (params s) x
    (global_block s) (saved_global_block s) (dims s)
    (pre_selected_blocks s) (blocks s).

Definition set_global_block (gb : AlgoBlock) (s : BaseAlgorithm) : BaseAlgorithm :=
  mkBaseAlgorithm (df s) (correct_mode s) (params s) (ratio_to_initial s)
    gb (saved_global_block s) (dims s)
    (pre_selected_blocks s) (blocks s).

Definition set_df (d : DataFrame) (s : BaseAlgorithm) : BaseAlgorithm :=
  mkBaseAlgorithm d (correct_mode s) (params s) (ratio_to_initial s)
    (global_block s) (saved_global_block s) (dims s)
    (pre_selected_blocks s) (blocks s).

(** The two lists a saved block can be appended to. *)
Inductive BlockList : Type := PreSelected | Discovered.

Definition block_list (l : BlockList) (s : BaseAlgorithm) : list SavedBlock :=
  match l with
  | PreSelected => pre_selected_blocks s
  | Discovered => blocks s
  end.

(** [blist.append(sb)]: the list is an attribute of the object, so the
    object sees the new element. *)
Definition append_block (l : BlockList) (sb : SavedBlock) (s : BaseAlgorithm)
  : BaseAlgorithm :=
  match l with
  | PreSelected =>
      mkBaseAlgorithm (df s) (correct_mode s) (params s) (ratio_to_initial s)
        (global_block s) (saved_global_block s) (dims s)
        (pre_selected_blocks s ++ [sb]) (blocks s)
  | Discovered =>
      mkBaseAlgorithm (df s) (correct_mode s) (params s) (ratio_to_initial s)
        (global_block s) (saved_global_block s) (dims s)
        (pre_selected_blocks s) (blocks s ++ [sb])
  end.

Definition modify (f : BaseAlgorithm -> BaseAlgorithm) : M unit :=
  fun s => (f s, [], inr tt).

(** [_make_global_block(df)] *)
Definition _make_global_block (s : BaseAlgorithm) (d : DataFrame) : AlgoBlock :=
  new_AlgoBlock d (profit_measure (params s)) None None None.

(** [make_block(keys, block_type)] *)
Definition make_block (s : BaseAlgorithm) (k : Keys) (t : BlockType) : AlgoBlock :=
  new_AlgoBlock (df s) (profit_measure (params s)) (Some k) (Some t)
                (Some (global_block s)).

(** [correct_facts(b)] *)
Definition correct_facts (b : AlgoBlock) : M unit :=
  self <- get ;;
  py_assert (parent_is b (global_block self)) ;;
  if String.eqb (correct_mode self) "DEL" then
    let next_df := out_block (df self) b in
    let next_gb := _make_global_block self next_df in
    py_assert (float_eq (cur_revenue next_gb + cur_revenue b)
                        (cur_revenue (global_block self))) ;;
    py_assert (float_eq (ref_revenue next_gb + ref_revenue b)
                        (ref_revenue (global_block self))) ;;
    py_assert (float_eq (cur_profit next_gb + cur_profit b)
                        (cur_profit (global_block self))) ;;
    py_assert (float_eq (ref_profit next_gb + ref_profit b)
                        (ref_profit (global_block self))) ;;
    py_assert (0 <? cur_revenue (global_block self))%float ;;
    py_assert (0 <? cur_revenue next_gb)%float ;;
    let x := (cur_revenue next_gb / cur_revenue (global_block self))%float in
    modify (fun s => set_ratio_to_initial (ratio_to_initial s * x)%float s) ;;
    modify (set_global_block next_gb) ;;
    modify (set_df next_df)
  else
    raise (call_NotImplemented [not_implemented_message (correct_mode self)]).

(** The loop of [__remove_unnecessary_dimensions]: [new_dims] collects the
    dimensions that keep more or less than one value. *)
Fixpoint prune_loop (d : DataFrame) (ds new_dims : list string) : M (list string) :=
  match ds with
  | [] => ret new_dims
  | x :: rest =>
      let vals := unique d x in
      if Nat.eqb (List.length vals) 1
      then emit (LogDimIgnored x) ;; prune_loop d rest new_dims
      else prune_loop d rest (new_dims ++ [x])
  end.

Definition __remove_unnecessary_dimensions : M unit :=
  self <- get ;;
  new_dims <- prune_loop (df self) (dims self) [] ;;
  modify (set_dims new_dims).

(** [__apply_and_save_block(b, blist, index)] *)
Definition __apply_and_save_block (b : AlgoBlock) (blist : BlockList) (index : Z)
  : M unit :=
  self <- get ;;
  let sb := set_contrib_bps (from_block b)
              (contrib_bps b * ratio_to_initial self)%float in
  emit (LogBlock index (sb_contrib_bps sb) (block_type_repr sb)
                 (100 * ratio_to_initial self)%float (sb_keys sb)) ;;
  correct_facts b ;;
  modify (append_block blist sb) ;;
  __remove_unnecessary_dimensions.

(** The lines a strategy writes to the log file. *)
Definition write_lines (lines : list string) : M unit :=
  fold_right (fun l k => emit (FileWrite l) ;; k) (ret tt) lines.

(** The loop of [run], over the indices still to visit: [None] from the
    strategy leaves the loop. *)
Fixpoint run_loop (log_file : bool) (indices : list Z) : M unit :=
  match indices with
  | [] => ret tt
  | i :: rest =>
      self <- get ;;
      let '(lines, r) := find_next_block self i log_file in
      write_lines lines ;;
      match r with
      | inl e => raise e
      | inr None => emit (LogNoBlock i)
      | inr (Some b) =>
          __apply_and_save_block b Discovered i ;;
          run_loop log_file rest
      end
  end.

(** [if log_file and self.log_file_caption(): log_file.write(caption + '\n')] *)
Definition write_caption (log_file : bool) : M unit :=
  self <- get ;;
  match log_file, log_file_caption self with
  | true, Some c =>
      if str_truthy c then emit (FileWrite (c ++ newline)%string) else ret tt
  | _, _ => ret tt
  end.

(** The value [run] returns from the object it leaves. *)
Definition waterfall (self : BaseAlgorithm) : Waterfall :=
  mkWaterfall (waterfall_title (params self)) (input_dims (params self))
              "Actuel" "Reference" (saved_global_block self)
              (blocks self) (pre_selected_blocks self).

(** [run(log_file)]: [log_file] tells whether a file was passed. *)
Definition run (log_file : bool) : M Waterfall :=
  self <- get ;;
  py_assert (match blocks self with [] => true | _ => false end) ;;
  write_caption log_file ;;
  run_loop log_file (py_range 0 (max_block_number (params self))) ;;
  self <- get ;;
  ret (waterfall self).

(** The pre-selection loop of [__init__]: [i] is the index before the
    increment. *)
Fixpoint preselect_loop (i : Z) (ibs : list InputBlock) : M unit :=
  match ibs with
  | [] => ret tt
  | ib :: rest =>
      self <- get ;;
      let b := make_block self (ib_keys ib) (ib_block_type ib) in
      let i := (i + 1)%Z in
      __apply_and_save_block b PreSelected i ;;
      preselect_loop i rest
  end.

(** The attributes [__init__] assigns before it prunes the dimensions and
    applies the pre-selected blocks.  The two block lists are assigned
    after the first pruning in the source; pruning does not read them. *)
Definition init_fields (p : AlgorithmParameters) (d : DataFrame) : BaseAlgorithm :=
  let gb := new_AlgoBlock d (profit_measure p) None None None in
  mkBaseAlgorithm d (param_correct_mode p) p 1%float gb (from_block gb)
                  (input_dims p) [] [].

(** [BaseAlgorithm(params, df)]: the output, and the exception raised or
    the object built. *)
Definition __init__ (p : AlgorithmParameters) (d : DataFrame)
  : list Event * (PyExc + BaseAlgorithm) :=
  if value_list_contains CORRECT_MODES (param_correct_mode p) then
    let body :=
      __remove_unnecessary_dimensions ;;
      preselect_loop (- Z.of_nat (List.length (param_pre_selected_blocks p)) - 1)
                     (param_pre_selected_blocks p) in
    match body (init_fields p d) with
    | (s, out, inr _) => (out, inr s)
    | (_, out, inl e) => (out, inl e)
    end
  else ([], inl AssertionError).

End Orchestrator.

(** ** Vocabulary of the statements *)

Section Vocabulary.

Context {T : Tables} {C : Collaborators} {St : Strategy}.

(** The test of the pruning loop: the dimension is kept unless it has
    exactly one value in the table. *)
Definition discriminates (d : DataFrame) (x : string) : bool :=
  negb (Nat.eqb (List.length (unique d x)) 1).

(** No tracked dimension has exactly one distinct value in the working
    table. *)
Definition no_singleton_dimension (s : BaseAlgorithm) : Prop :=
  forall x, In x (dims s) -> List.length (unique (df s) x) <> 1.

(** The four conservation checks of [correct_facts], on the block [b] and
    the object [s] before the step. *)
Definition conserved (b : AlgoBlock) (s : BaseAlgorithm) : bool :=
  let next_gb := _make_global_block s (out_block (df s) b) in
  float_eq (cur_revenue next_gb + cur_revenue b) (cur_revenue (global_block s))
  && float_eq (ref_revenue next_gb + ref_revenue b) (ref_revenue (global_block s))
  && float_eq (cur_profit next_gb + cur_profit b) (cur_profit (global_block s))
  && float_eq (ref_profit next_gb + ref_profit b) (ref_profit (global_block s)).

(** The two revenue checks of [correct_facts]. *)
Definition revenue_positive (b : AlgoBlock) (s : BaseAlgorithm) : bool :=
  let next_gb := _make_global_block s (out_block (df s) b) in
  (0 <? cur_revenue (global_block s))%float && (0 <? cur_revenue next_gb)%float.

(** The object a successful delete-matched-rows correction leaves. *)
Definition corrected (b : AlgoBlock) (s : BaseAlgorithm) : BaseAlgorithm :=
  let next_df := out_block (df s) b in
  let next_gb := _make_global_block s next_df in
  mkBaseAlgorithm next_df (correct_mode s) (params s)
    (ratio_to_initial s * (cur_revenue next_gb / cur_revenue (global_block s)))%float
    next_gb (saved_global_block s) (dims s) (pre_selected_blocks s) (blocks s).

(** The saved block of [b] when it is applied to [s]. *)
Definition saved (b : AlgoBlock) (s : BaseAlgorithm) : SavedBlock :=
  set_contrib_bps (from_block b) (contrib_bps b * ratio_to_initial s)%float.

(** The diagnostic of [b] when it is applied to [s] under [index]. *)
Definition diagnostic (b : AlgoBlock) (index : Z) (s : BaseAlgorithm) : Event :=
  LogBlock index (sb_contrib_bps (saved b s)) (block_type_repr (saved b s))
           (100 * ratio_to_initial s)%float (sb_keys (saved b s)).

(** The pruning of the tracked dimensions against the working table. *)
Definition pruned (s : BaseAlgorithm) : BaseAlgorithm :=
  set_dims (filter (discriminates (df s)) (dims s)) s.

(** The diagnostics of one pruning. *)
Definition pruning_log (s : BaseAlgorithm) : list Event :=
  map LogDimIgnored (filter (fun x => negb (discriminates (df s) x)) (dims s)).

(** A correction step as its two global aggregates: the one it replaced
    and the one it installed. *)
Definition Step : Type := (AlgoBlock * AlgoBlock)%type.

(** [new_global.current_revenue / old_global.current_revenue] *)
Definition step_ratio (st : Step) : float :=
  (cur_revenue (snd st) / cur_revenue (fst st))%float.

(** The product of the ratios of the steps, in the order of the steps,
    starting from [r0]. *)
Definition ratio_product (r0 : float) (steps : list Step) : float :=
  fold_left (fun r st => (r * step_ratio st)%float) steps r0.

(** [applied s steps s']: the object [s'] is reached from [s] by applying
    blocks one after the other, each application returning normally;
    [steps] lists their correction steps. *)
Inductive applied : BaseAlgorithm -> list Step -> BaseAlgorithm -> Prop :=
| applied_none s : applied s [] s
| applied_block s b blist index s1 out steps s2 :
    __apply_and_save_block b blist index s = (s1, out, inr tt) ->
    applied s1 steps s2 ->
    applied s ((global_block s, global_block s1) :: steps) s2.

(** The indices of the block diagnostics, in the order they were logged. *)
Fixpoint logged_indices (out : list Event) : list Z :=
  match out with
  | [] => []
  | LogBlock i _ _ _ _ :: rest => i :: logged_indices rest
  | _ :: rest => logged_indices rest
  end.

(** Following the words of the spec: the residual left by a list of
    pre-selected key-sets.  Each block is built on the table [d] and the
    global aggregate [gb] left by the previous ones, and its rows are then
    excluded; [r] is the cumulative ratio so far.  The result lists the
    saved blocks and gives the last table, global aggregate and ratio. *)
Fixpoint residual (pm : Measure) (d : DataFrame) (gb : AlgoBlock) (r : float)
         (ibs : list InputBlock)
  : list SavedBlock * (DataFrame * AlgoBlock * float) :=
  match ibs with
  | [] => ([], (d, gb, r))
  | ib :: rest =>
      let b := new_AlgoBlock d pm (Some (ib_keys ib)) (Some (ib_block_type ib))
                             (Some gb) in
      let d' := out_block d b in
      let gb' := new_AlgoBlock d' pm None None None in
      let '(sbs, last) :=
        residual pm d' gb' (r * (cur_revenue gb' / cur_revenue gb))%float rest in
      (set_contrib_bps (from_block b) (contrib_bps b * r)%float :: sbs, last)
  end.

End Vocabulary.

(** ** A concrete table and concrete collaborators

    Stand-ins for the imported modules, on which the orchestrator can be
    evaluated: a table is a list of rows, a key-set a list of
    (dimension, value) pairs, and an aggregate sums the measures of the rows
    that match.  The contribution is the profit swing of the block in basis
    points of the parent's current revenue. *)
Module Sales.

Record Row : Type := mkRow {
  row_dims : list (string * string);
  row_cur_revenue : float;
  row_ref_revenue : float;
  row_cur_profit : float;
  row_ref_profit : float
}.

#[export] Instance tables : Tables := {
  DataFrame := list Row;
  Keys := list (string * string);
  BlockType := string;
  Measure := unit;
  Cell := string
}.

Fixpoint lookup (x : string) (kv : list (string * string)) : option string :=
  match kv with
  | [] => None
  | (k, v) :: rest => if String.eqb k x then Some v else lookup x rest
  end.

Definition matches (k : option (list (string * string))) (r : Row) : bool :=
  match k with
  | None => true
  | Some kv =>
      forallb (fun '(x, v) =>
                 match lookup x (row_dims r) with
                 | Some v' => String.eqb v v'
                 | None => false
                 end) kv
  end.

Definition total (f : Row -> float) (rows : list Row) : float :=
  fold_left (fun acc r => (acc + f r)%float) rows 0%float.

Definition sales_aggregate (d : list Row) (_ : unit)
           (k : option (list (string * string))) (_ : option string)
           (p : option AlgoBlock) : Aggregate :=
  let rows := filter (matches k) d in
  let cp := total row_cur_profit rows in
  let rp := total row_ref_profit rows in
  mkAggregate (total row_cur_revenue rows) (total row_ref_revenue rows) cp rp
    match p with
    | None => 0%float
    | Some gb => (10000 * (cp - rp) / cur_revenue gb)%float
    end.

Definition sales_out_block (d : list Row) (b : AlgoBlock) : list Row :=
  filter (fun r => negb (matches (keys b) r)) d.

Fixpoint dedup (l : list string) : list string :=
  match l with
  | [] => []
  | x :: rest => if existsb (String.eqb x) rest then dedup rest else x :: dedup rest
  end.

Definition sales_unique (d : list Row) (x : string) : list string :=
  dedup (map (fun r => match lookup x (row_dims r) with
                       | Some v => v
                       | None => ""
                       end) d).

(** Equality within relative tolerance [1e-6]. *)
Definition sales_float_eq (a b : float) : bool :=
  (abs (a - b) <=? 0x1.0c6f7a0b5ed8dp-20 * (if abs a <? abs b then abs b else abs a))%float.

Definition keys_eqb (a b : list (string * string)) : bool :=
  Nat.eqb (List.length a) (List.length b)
  && forallb (fun '((k1, v1), (k2, v2)) => String.eqb k1 k2 && String.eqb v1 v2)
             (combine a b).

Definition option_eqb {A} (eqb : A -> A -> bool) (a b : option A) : bool :=
  match a, b with
  | None, None => true
  | Some x, Some y => eqb x y
  | _, _ => false
  end.

(** Field by field equality of two blocks. *)
Fixpoint sales_block_eq (a b : AlgoBlock) : bool :=
  let '(mkAlgoBlock ka ta pa x1 x2 x3 x4 x5) := a in
  let '(mkAlgoBlock kb tb pb y1 y2 y3 y4 y5) := b in
  option_eqb keys_eqb ka kb && option_eqb String.eqb ta tb
  && match pa, pb with
     | None, None => true
     | Some p, Some q => sales_block_eq p q
     | _, _ => false
     end
  && (x1 =? y1)%float && (x2 =? y2)%float && (x3 =? y3)%float
  && (x4 =? y4)%float && (x5 =? y5)%float.

#[export] Instance collaborators : Collaborators := {
  aggregate := sales_aggregate;
  out_block := sales_out_block;
  unique := sales_unique;
  float_eq := sales_float_eq;
  block_eq := sales_block_eq;
  block_type_repr := fun sb => match sb_block_type sb with
                               | Some t => t
                               | None => ""
                               end
}.

(** Four rows over the dimensions Region and Product; the current revenue
    of the whole table is 1,000,000. *)
Definition facts : list Row :=
  [ mkRow [("Region", "EU"); ("Product", "Widgets")] 200000 210000 20000 23000;
    mkRow [("Region", "EU"); ("Product", "Gadgets")] 100000 100000 10000 12000;
    mkRow [("Region", "US"); ("Product", "Widgets")] 400000 380000 38600 40000;
    mkRow [("Region", "US"); ("Product", "Gadgets")] 300000 290000 33000 30000 ]%float.

(** A strategy that proposes Region=EU, then Product=Widgets, then nothing. *)
#[export] Instance scripted : Strategy := {
  find_next_block := fun self i _ =>
    ([], inr (if Z.eqb i 0 then Some (make_block self [("Region", "EU")] "MIX")
              else if Z.eqb i 1 then Some (make_block self [("Product", "Widgets")] "MIX")
              else None));
  log_file_caption := fun _ => None
}.

(** A strategy that never finds a block. *)
Definition exhausted : Strategy := {|
  find_next_block := fun _ _ _ => ([], inr None);
  log_file_caption := fun _ => None
|}.

Definition parameters (pre : list InputBlock) (n : Z) (mode : string)
  : AlgorithmParameters :=
  mkAlgorithmParameters ["Region"; "Product"] pre "Sales" n mode tt.


(** The object built on [facts] with no pre-selected block. *)
Definition fresh : BaseAlgorithm := init_fields (parameters [] 10 "DEL") facts.

(** Region=EU, built on the whole table, and the object once it is applied
    as block 0. *)
Definition eu : AlgoBlock := make_block fresh [("Region", "EU")] "MIX".
Definition after_eu : BaseAlgorithm :=
  fst (fst (__apply_and_save_block eu Discovered 0 fresh)).
Definition log_eu : list Event :=
  snd (fst (__apply_and_save_block eu Discovered 0 fresh)).

(** Product=Widgets, built on the residual, and the object once it is
    applied as block 1. *)
Definition widgets : AlgoBlock := make_block after_eu [("Product", "Widgets")] "MIX".
Definition after_widgets : BaseAlgorithm :=
  fst (fst (__apply_and_save_block widgets Discovered 1 after_eu)).
Definition log_widgets : list Event :=
  snd (fst (__apply_and_save_block widgets Discovered 1 after_eu)).

(** A block whose figures are not those of its rows. *)
Definition forged : AlgoBlock :=
  mkAlgoBlock (Some [("Region", "EU")]) (Some "MIX") (Some (global_block fresh))
              1 1 1 1 0.

(** The block of the empty key-set: it matches every row. *)
Definition everything : AlgoBlock := make_block fresh [] "MIX".

(** An object whose correction mode is not the delete-matched-rows mode. *)
Definition other_mode : BaseAlgorithm := init_fields (parameters [] 10 "MUL") facts.

(** The scripted run on [fresh], without a log file. *)
Definition ran : BaseAlgorithm := fst (fst (run false fresh)).
Definition log_ran : list Event := snd (fst (run false fresh)).

(** The same two key-sets, pre-selected. *)
Definition preselected : AlgorithmParameters :=
  parameters [ mkInputBlock [("Region", "EU")] "MIX";
               mkInputBlock [("Product", "Widgets")] "MIX" ] 10 "DEL".
Definition log_built : list Event := fst (__init__ preselected facts).
Definition built : BaseAlgorithm :=
  match snd (__init__ preselected facts) with
  | inr s => s
  | inl _ => fresh
  end.

End Sales.

(** ** The configuration: the class [AlgorithmParameters] *)

Definition ALGO_NAMES : list Value :=
  [ mkValue "TD" "Methode top-down";
    mkValue "REP" "Reproduit un waterfall precedent" ].

(** [CORRECT_MODES.default] *)
Definition CORRECT_MODES_default : string := "DEL".

(** The double quote character. *)
Definition double_quote : string := String (Ascii.ascii_of_nat 34) EmptyString.

(** The message of the [ValueError]: [Unknown algorithm: ] followed by the
    name between double quotes. *)
Definition unknown_algorithm_message (algorithm : string) : string :=
  ("Unknown algorithm: " ++ double_quote ++ algorithm ++ double_quote)%string.

(** What the constructor of [AlgorithmParameters] can raise. *)
Inductive ConfigExc : Type :=
| ConfigAssertionError
| ValueError (msg : string).

(** What [k[0]] raises on an empty string. *)
Inductive SubscriptExc : Type := IndexError.

(** The module [measures], which is imported and not part of this file, and
    the types of the two strategy-specific bundles, which are only stored. *)
Class Measures {T : Tables} : Type := {
  MarginType : Type;
  ReproduceBlocks : Type;
  TopDownParameters : Type;
  (** [x in measures.MARGIN_TYPES] *)
  margin_type_known : MarginType -> bool;
  (** [measures.all_measure_fields] *)
  all_measure_fields : MarginType -> list string;
  (** [measures.profit_measure] *)
  measures_profit_measure : MarginType -> Measure
}.

(** A Python dict with string keys, as the list of its items: a key occurs
    once. *)
Section Dict.

Context {A : Type}.

(** [d.get(k)] *)
Fixpoint dict_get (k : string) (d : list (string * A)) : option A :=
  match d with
  | [] => None
  | (k', v) :: rest => if String.eqb k' k then Some v else dict_get k rest
  end.

(** [d[k] = v]: the value of an existing key is replaced, a new key is
    added. *)
Fixpoint dict_set (k : string) (v : A) (d : list (string * A)) : list (string * A) :=
  match d with
  | [] => [(k, v)]
  | (k', v') :: rest =>
      if String.eqb k' k then (k, v) :: rest else (k', v') :: dict_set k v rest
  end.

End Dict.

(** The loop of [to_json_compatible] over the items of [__dict__]: a key
    whose first character is not an underscore is exported with its value
    converted; [k[0]] raises on an empty key. *)
Fixpoint to_json_items {V J : Type} (convert : V -> J)
         (items : list (string * V)) (jo : list (string * J))
  : SubscriptExc + list (string * J) :=
  match items with
  | [] => inr jo
  | (k, v) :: rest =>
      match String.get 0 k with
      | None => inl IndexError
      | Some c =>
          if negb (Ascii.eqb c (Ascii.ascii_of_nat 95))
          then to_json_items convert rest (dict_set k (convert v) jo)
          else to_json_items convert rest jo
      end
  end.

(** The key starts with an underscore. *)
Definition is_private (k : string) : bool :=
  match String.get 0 k with
  | Some c => Ascii.eqb c (Ascii.ascii_of_nat 95)
  | None => false
  end.

Section Configuration.

Context {T : Tables} {Ms : Measures}.

(** The base input parameters: [margin_type] and [dims] are read. *)
Record InputParameters : Type := mkInputParameters {
  margin_type : MarginType;
  ip_dims : list string
}.

(** The attributes of an [AlgorithmParameters] object, in the order the
    constructor assigns them; the last two are [_meas_fields] and
    [_profit_measure]. *)
Record Configuration : Type := mkConfiguration {
  cfg_input_parameters : InputParameters;
  cfg_algorithm : string;
  cfg_pre_selected_blocks : list InputBlock;
  cfg_waterfall_title : string;
  cfg_reproduce_blocks : option ReproduceBlocks;
  cfg_max_block_number : Z;
  cfg_correct_mode : string;
  cfg_top_down_parameters : option TopDownParameters;
  cfg_meas_fields : list string;
  cfg_profit_measure : Measure
}.

(** The property [margin_type]. *)
Definition cfg_margin_type (o : Configuration) : MarginType :=
  margin_type (cfg_input_parameters o).

(** [AlgorithmParameters(...)]: [None] for [max_block_number] or
    [correct_mode] is the argument left to its default. *)
Definition new_AlgorithmParameters
           (input_parameters : InputParameters) (algorithm : string)
           (pre_selected : list InputBlock) (title : string)
           (reproduce_blocks : option ReproduceBlocks)
           (top_down_parameters : option TopDownParameters)
           (max_blocks : option Z) (mode : option string)
  : ConfigExc + Configuration :=
  let max_blocks := match max_blocks with Some n => n | None => 10%Z end in
  let mode := match mode with Some m => m | None => CORRECT_MODES_default end in
  if negb (margin_type_known (margin_type input_parameters)) then
    inl ConfigAssertionError
  else if negb (value_list_contains CORRECT_MODES mode) then
    inl ConfigAssertionError
  else if negb (value_list_contains ALGO_NAMES algorithm) then
    inl (ValueError (unknown_algorithm_message algorithm))
  else
    inr (mkConfiguration input_parameters algorithm pre_selected title
           reproduce_blocks max_blocks mode top_down_parameters
           (all_measure_fields (margin_type input_parameters))
           (measures_profit_measure (margin_type input_parameters))).


(** The value of an attribute. *)
Inductive AttrValue : Type :=
| AttrInput (x : InputParameters)
| AttrStr (x : string)
| AttrBlocks (x : list InputBlock)
| AttrReproduce (x : option ReproduceBlocks)
| AttrTopDown (x : option TopDownParameters)
| AttrInt (x : Z)
| AttrFields (x : list string)
| AttrMeasure (x : Measure).

(** [self.__dict__] of an object the constructor has built. *)
Definition attributes (o : Configuration) : list (string * AttrValue) :=
  [ ("input_parameters", AttrInput (cfg_input_parameters o));
    ("algorithm", AttrStr (cfg_algorithm o));
    ("pre_selected_blocks", AttrBlocks (cfg_pre_selected_blocks o));
    ("waterfall_title", AttrStr (cfg_waterfall_title o));
    ("reproduce_blocks", AttrReproduce (cfg_reproduce_blocks o));
    ("max_block_number", AttrInt (cfg_max_block_number o));
    ("correct_mode", AttrStr (cfg_correct_mode o));
    ("top_down_parameters", AttrTopDown (cfg_top_down_parameters o));
    ("_meas_fields", AttrFields (cfg_meas_fields o));
    ("_profit_measure", AttrMeasure (cfg_profit_measure o)) ].

End Configuration.

(** [utils.to_json_compatible], on the value of an attribute. *)
Class Serializer {T : Tables} {Ms : Measures} : Type := {
  Json : Type;
  utils_to_json_compatible : AttrValue -> Json
}.

(** [to_json_compatible()] *)
Definition to_json_compatible {T : Tables} {Ms : Measures} {Sz : Serializer}
           (o : Configuration) : SubscriptExc + list (string * Json) :=
  to_json_items utils_to_json_compatible (attributes o) [].

(** ** The base class as a strategy *)

(** [find_next_block] and [log_file_caption] as [BaseAlgorithm] itself
    defines them: the first is [raise NotImplemented()], the second returns
    [None]. *)
Definition base_class {T : Tables} : Strategy := {|
  find_next_block := fun _ _ _ => ([], inl (call_NotImplemented []));
  log_file_caption := fun _ => None
|}.

(** ** More vocabulary *)

Section MoreVocabulary.

Context {T : Tables} {C : Collaborators} {St : Strategy}.

(** The scaled contribution and the key-set of each block diagnostic, in the
    order they were logged. *)
Fixpoint logged_blocks (out : list Event) : list (float * option Keys) :=
  match out with
  | [] => []
  | LogBlock _ c _ _ k :: rest => (c, k) :: logged_blocks rest
  | _ :: rest => logged_blocks rest
  end.

(** What [write_caption] writes. *)
Definition caption_lines (log_file : bool) (s : BaseAlgorithm) : list Event :=
  snd (fst (write_caption log_file s)).

End MoreVocabulary.

(** ** A concrete measure catalog *)
Module Catalog.

Import Sales.

#[export] Instance measures : Measures := {
  MarginType := string;
  ReproduceBlocks := unit;
  TopDownParameters := unit;
  margin_type_known := fun m => String.eqb m "GROSS" || String.eqb m "NET";
  all_measure_fields := fun m => ["revenue"; String.append m "_profit"];
  measures_profit_measure := fun _ => tt
}.

(** Strings are exported as they are, integers as their sign, anything else
    as a tag. *)
#[export] Instance serializer : Serializer := {
  Json := string;
  utils_to_json_compatible := fun v =>
    match v with
    | AttrStr x => x
    | AttrInt x => if Z.ltb x 0 then "negative" else "natural"
    | _ => "object"
    end
}.

Definition gross : InputParameters := mkInputParameters "GROSS" ["Region"; "Product"].

(** The configuration of a top-down study of [facts], every default kept. *)
Definition top_down : Configuration :=
  match new_AlgorithmParameters gross "TD" [] "Sales" None None None None with
  | inr o => o
  | inl _ => mkConfiguration gross "" [] "" None 0 "" None [] tt
  end.

(** A strategy that proposes Region=EU on the current residual, and then a
    block built before that correction. *)
Definition spoiled : Strategy := {|
  find_next_block := fun self i _ =>
    ([], inr (Some (if Z.eqb i 0 then make_block self [("Region", "EU")] "MIX"
                    else forged)));
  log_file_caption := fun _ => None
|}.

(** The object the spoiled run leaves, and what it logged. *)
Definition stopped : BaseAlgorithm := fst (fst (run (St := spoiled) false fresh)).
Definition log_stopped : list Event := snd (fst (run (St := spoiled) false fresh)).

(** A strategy with a caption, which finds no block. *)
Definition captioned : Strategy := {|
  find_next_block := fun _ _ _ => ([], inr None);
  log_file_caption := fun _ => Some "Top-down"
|}.

(** The object built on [facts] with [max_block_number] zero. *)
Definition idle : BaseAlgorithm := init_fields (parameters [] 0 "DEL") facts.


End Catalog.

(** ** Properties *)

Section Properties.

Context {T : Tables} {C : Collaborators} {St : Strategy}.

(** *** Python floats: multiplying by [1.0] changes nothing *)

Lemma mul_shift52 (m : positive) : (m * 4503599627370496)%positive = shift52 m.
Proof. rewrite Pos.mul_comm. reflexivity. Qed.

Lemma digits2_shift52 (m : positive) :
  Zpos (digits2_pos (shift52 m)) = (Zpos (digits2_pos m) + 52)%Z.
Proof. unfold shift52. cbn [digits2_pos]. rewrite !Pos2Z.inj_succ. lia. Qed.

Lemma shr_shift52 (m : positive) :
  iter_pos shr_1 52 (Build_shr_record (Zpos (shift52 m)) false false)
  = Build_shr_record (Zpos m) false false.
Proof. reflexivity. Qed.

Lemma SFmul_one_r (x : spec_float) :
  valid_binary x = true ->
  SF64mul x (S754_finite false 4503599627370496 (-52)) = x.
Proof.
  destruct x as [sg | sg | | sg m e]; intros H.
  - cbn [SF64mul SFmul]. now rewrite xorb_false_r.
  - cbn [SF64mul SFmul]. now rewrite xorb_false_r.
  - reflexivity.
  - unfold valid_binary, SpecFloat.valid_binary, bounded, canonical_mantissa in H.
    apply andb_prop in H as [Hc Hb]. apply Z.eqb_eq in Hc.
    unfold SF64mul, SFmul. rewrite xorb_false_r, mul_shift52.
    unfold binary_round_aux, shr_fexp.
    unfold Zdigits2 at 1. rewrite digits2_shift52.
    replace (Z.pos (digits2_pos m) + 52 + (e + -52))%Z
      with (Z.pos (digits2_pos m) + e)%Z by lia.
    rewrite Hc.
    replace (e - (e + -52))%Z with 52%Z by lia.
    unfold shr at 1.
    change (shr_record_of_loc (Z.pos (shift52 m)) loc_Exact)
      with (Build_shr_record (Z.pos (shift52 m)) false false).
    rewrite shr_shift52.
    cbn [shr_m loc_of_shr_record round_nearest_even Zdigits2 shr_record_of_loc].
    replace (e + -52 + 52)%Z with e by lia.
    rewrite Hc, Z.sub_diag. cbn [shr shr_m].
    rewrite Hb. reflexivity.
Qed.

Lemma SFmul_one_l (x : spec_float) :
  valid_binary x = true ->
  SF64mul (S754_finite false 4503599627370496 (-52)) x = x.
Proof.
  intros H. rewrite <- (SFmul_one_r x H) at 2.
  destruct x as [sg | sg | | sg m e]; unfold SF64mul, SFmul;
    rewrite ?xorb_false_r; try reflexivity.
  now rewrite Pos.mul_comm, Z.add_comm.
Qed.

Lemma float_mul_1_r (x : float) : (x * 1)%float = x.
Proof.
  apply Prim2SF_inj. rewrite mul_spec.
  change (Prim2SF 1) with (S754_finite false 4503599627370496 (-52)).
  apply SFmul_one_r, Prim2SF_valid.
Qed.

Lemma float_mul_1_l (x : float) : (1 * x)%float = x.
Proof.
  apply Prim2SF_inj. rewrite mul_spec.
  change (Prim2SF 1) with (S754_finite false 4503599627370496 (-52)).
  apply SFmul_one_l, Prim2SF_valid.
Qed.

(** *** The correction step *)

Lemma correct_facts_DEL (b : AlgoBlock) (s : BaseAlgorithm) :
  correct_mode s = "DEL" ->
  correct_facts b s =
    if parent_is b (global_block s) && conserved b s && revenue_positive b s
    then (corrected b s, [], inr tt)
    else (s, [], inl AssertionError).
Proof.
  intros Hmode.
  unfold correct_facts, bind, get, conserved, revenue_positive.
  destruct (parent_is b (global_block s)); simpl; [| reflexivity].
  rewrite Hmode; simpl.
  repeat match goal with
         | |- context [py_assert ?c] =>
             destruct c; simpl; [| rewrite ?andb_false_r; reflexivity]
         end.
  reflexivity.
Qed.

Lemma correct_facts_other_mode (b : AlgoBlock) (s : BaseAlgorithm) :
  String.eqb (correct_mode s) "DEL" = false ->
  correct_facts b s =
    (s, [], inl (if parent_is b (global_block s)
                 then call_NotImplemented [not_implemented_message (correct_mode s)]
                 else AssertionError)).
Proof.
  intros Hmode.
  unfold correct_facts, bind, get.
  destruct (parent_is b (global_block s)); simpl; [| reflexivity].
  rewrite Hmode. reflexivity.
Qed.

(** Whatever the mode, [correct_facts] logs nothing, leaves the object
    untouched when it raises, and returns only after every check. *)
Lemma correct_facts_inv (b : AlgoBlock) (s s' : BaseAlgorithm) out r :
  correct_facts b s = (s', out, r) ->
  out = [] /\
  match r with
  | inl _ => s' = s
  | inr _ =>
      correct_mode s = "DEL" /\ parent_is b (global_block s) = true /\
      conserved b s = true /\ revenue_positive b s = true /\ s' = corrected b s
  end.
Proof.
  intros H.
  destruct (String.eqb (correct_mode s) "DEL") eqn:Hmode.
  - apply String.eqb_eq in Hmode.
    rewrite (correct_facts_DEL b s Hmode) in H.
    destruct (parent_is b (global_block s)); simpl in H;
      [| inversion H; subst; auto].
    destruct (conserved b s); simpl in H; [| inversion H; subst; auto].
    destruct (revenue_positive b s); simpl in H; inversion H; subst; auto 10.
  - rewrite (correct_facts_other_mode b s Hmode) in H.
    inversion H; subst; auto.
Qed.

(** *** Dimension pruning *)

Lemma prune_loop_eq (d : DataFrame) (ds acc : list string) (s : BaseAlgorithm) :
  prune_loop d ds acc s =
    (s, map LogDimIgnored (filter (fun x => negb (discriminates d x)) ds),
     inr (acc ++ filter (discriminates d) ds)).
Proof.
  unfold discriminates.
  revert acc; induction ds as [| x rest IH]; intros acc; simpl.
  - unfold ret. now rewrite app_nil_r.
  - destruct (Nat.eqb (List.length (unique d x)) 1); simpl.
    + unfold bind, emit. rewrite IH. reflexivity.
    + rewrite IH, <- app_assoc. reflexivity.
Qed.

Lemma remove_unnecessary_dimensions_eq (s : BaseAlgorithm) :
  __remove_unnecessary_dimensions s = (pruned s, pruning_log s, inr tt).
Proof.
  unfold __remove_unnecessary_dimensions, bind, get, modify.
  rewrite prune_loop_eq. simpl. rewrite app_nil_r. reflexivity.
Qed.

Lemma pruned_no_singleton (s : BaseAlgorithm) : no_singleton_dimension (pruned s).
Proof.
  intros x Hx. simpl in Hx. apply filter_In in Hx as [_ Hx].
  unfold discriminates in Hx. simpl.
  destruct (Nat.eqb_spec (List.length (unique (df s) x)) 1); [discriminate | assumption].
Qed.

(** *** Apply-and-save *)

Lemma apply_and_save_block_eq (b : AlgoBlock) (blist : BlockList) (index : Z)
      (s : BaseAlgorithm) :
  __apply_and_save_block b blist index s =
    match correct_facts b s with
    | (_, _, inl e) => (s, [diagnostic b index s], inl e)
    | (s1, _, inr _) =>
        let s2 := append_block blist (saved b s) s1 in
        (pruned s2, diagnostic b index s :: pruning_log s2, inr tt)
    end.
Proof.
  unfold __apply_and_save_block, bind, get, emit, modify.
  destruct (correct_facts b s) as [[s1 out] r] eqn:Hc.
  destruct (correct_facts_inv _ _ _ _ _ Hc) as [-> Hr].
  destruct r as [e | []].
  - subst s1. reflexivity.
  - rewrite remove_unnecessary_dimensions_eq. reflexivity.
Qed.

(** A block is applied exactly when every check of the correction passes. *)
Lemma apply_and_save_block_ok (b : AlgoBlock) (blist : BlockList) (index : Z)
      (s s' : BaseAlgorithm) out :
  __apply_and_save_block b blist index s = (s', out, inr tt) ->
  correct_facts b s = (corrected b s, [], inr tt) /\
  s' = pruned (append_block blist (saved b s) (corrected b s)) /\
  out = diagnostic b index s
          :: pruning_log (append_block blist (saved b s) (corrected b s)).
Proof.
  rewrite apply_and_save_block_eq.
  destruct (correct_facts b s) as [[s1 o] r] eqn:Hc.
  destruct (correct_facts_inv _ _ _ _ _ Hc) as [-> Hr].
  destruct r as [e | []]; [discriminate |].
  destruct Hr as (_ & _ & _ & _ & ->).
  intros H; inversion H; subst; auto.
Qed.

Lemma apply_and_save_block_fails (b : AlgoBlock) (blist : BlockList) (index : Z)
      (s s' : BaseAlgorithm) out e :
  __apply_and_save_block b blist index s = (s', out, inl e) ->
  correct_facts b s = (s, [], inl e) /\ s' = s /\ out = [diagnostic b index s].
Proof.
  rewrite apply_and_save_block_eq.
  destruct (correct_facts b s) as [[s1 o] r] eqn:Hc.
  destruct (correct_facts_inv _ _ _ _ _ Hc) as [-> Hr].
  destruct r as [e' | []]; [| discriminate].
  subst s1. intros H; inversion H; subst; auto.
Qed.

Lemma apply_and_save_block_fields (b : AlgoBlock) (blist : BlockList) (index : Z)
      (s s' : BaseAlgorithm) out :
  __apply_and_save_block b blist index s = (s', out, inr tt) ->
  block_list blist s' = block_list blist s ++ [saved b s] /\
  params s' = params s /\
  saved_global_block s' = saved_global_block s /\
  correct_mode s' = correct_mode s /\
  df s' = out_block (df s) b /\
  global_block s' = _make_global_block s (out_block (df s) b) /\
  ratio_to_initial s' =
    (ratio_to_initial s * (cur_revenue (global_block s') / cur_revenue (global_block s)))%float /\
  no_singleton_dimension s'.
Proof.
  intros H. apply apply_and_save_block_ok in H as (_ & -> & _).
  repeat split; try (destruct blist; reflexivity).
  apply pruned_no_singleton.
Qed.

Lemma apply_and_save_block_other_list (b : AlgoBlock) (index : Z)
      (s s' : BaseAlgorithm) out :
  __apply_and_save_block b Discovered index s = (s', out, inr tt) ->
  pre_selected_blocks s' = pre_selected_blocks s.
Proof.
  intros H. apply apply_and_save_block_ok in H as (_ & -> & _). reflexivity.
Qed.

Lemma apply_and_save_block_preselected (b : AlgoBlock) (index : Z)
      (s s' : BaseAlgorithm) out :
  __apply_and_save_block b PreSelected index s = (s', out, inr tt) ->
  blocks s' = blocks s.
Proof.
  intros H. apply apply_and_save_block_ok in H as (_ & -> & _). reflexivity.
Qed.

(** *** The run loop *)

Lemma write_lines_eq (lines : list string) (s : BaseAlgorithm) :
  write_lines lines s = (s, map FileWrite lines, inr tt).
Proof.
  induction lines as [| l rest IH]; [reflexivity |].
  unfold write_lines in *. simpl. unfold bind at 1. unfold emit at 1.
  rewrite IH. reflexivity.
Qed.

Lemma run_loop_cons (lf : bool) (i : Z) (rest : list Z) (s : BaseAlgorithm) :
  run_loop lf (i :: rest) s =
    let '(lines, r) := find_next_block s i lf in
    match r with
    | inl e => (s, map FileWrite lines, inl e)
    | inr None => (s, map FileWrite lines ++ [LogNoBlock i], inr tt)
    | inr (Some b) =>
        match __apply_and_save_block b Discovered i s with
        | (s1, out1, inl e) => (s1, map FileWrite lines ++ out1, inl e)
        | (s1, out1, inr _) =>
            let '(s2, out2, r2) := run_loop lf rest s1 in
            (s2, map FileWrite lines ++ out1 ++ out2, r2)
        end
    end.
Proof.
  cbn [run_loop]. unfold bind at 1. unfold get at 1.
  destruct (find_next_block s i lf) as [lines r].
  unfold bind at 1. rewrite write_lines_eq. cbn [app].
  destruct r as [e | [b |]].
  - unfold raise. now rewrite app_nil_r.
  - unfold bind.
    destruct (__apply_and_save_block b Discovered i s) as [[s1 out1] [e | []]];
      [reflexivity |].
    destruct (run_loop lf rest s1) as [[s2 out2] r2]. reflexivity.
  - reflexivity.
Qed.

Lemma no_exhaustion_in_lines (lines : list string) (i : Z) :
  ~ In (LogNoBlock i) (map FileWrite lines).
Proof. intros H. apply in_map_iff in H as (l & Hl & _). discriminate. Qed.

Lemma no_exhaustion_in_pruning_log (s : BaseAlgorithm) (i : Z) :
  ~ In (LogNoBlock i) (pruning_log s).
Proof. intros H. apply in_map_iff in H as (l & Hl & _). discriminate. Qed.

(** Whatever its outcome, the loop appends at most one block per index and
    touches neither the pre-selected list nor the parameters. *)
Lemma run_loop_any (lf : bool) (indices : list Z) :
  forall (s s' : BaseAlgorithm) out r,
    run_loop lf indices s = (s', out, r) ->
    (exists added, blocks s' = blocks s ++ added /\
                   (List.length added <= List.length indices)%nat) /\
    pre_selected_blocks s' = pre_selected_blocks s /\
    params s' = params s /\
    saved_global_block s' = saved_global_block s /\
    (no_singleton_dimension s -> no_singleton_dimension s').
Proof.
  induction indices as [| i rest IH]; intros s s' out r H.
  - inversion H; subst. repeat split; auto.
    exists []. now rewrite app_nil_r.
  - rewrite run_loop_cons in H.
    destruct (find_next_block s i lf) as [lines [e | [b |]]].
    + inversion H; subst. repeat split; auto.
      exists []. rewrite app_nil_r. split; [reflexivity | simpl; lia].
    + destruct (__apply_and_save_block b Discovered i s)
        as [[s1 out1] [e | []]] eqn:Ha.
      * apply apply_and_save_block_fails in Ha as (_ & -> & _).
        inversion H; subst. repeat split; auto.
        exists []. rewrite app_nil_r. split; [reflexivity | simpl; lia].
      * destruct (run_loop lf rest s1) as [[s2 out2] r2] eqn:Hl.
        inversion H; subst.
        pose proof (apply_and_save_block_other_list _ _ _ _ _ Ha) as Hpre.
        apply apply_and_save_block_fields in Ha
          as (Hb & Hp & Hg & _ & _ & _ & _ & Hn).
        apply IH in Hl as ((added & Hadd & Hlen) & Hpre' & Hp' & Hg' & Hn').
        simpl in Hb.
        repeat split; try congruence; auto.
        exists (saved b s :: added). split.
        -- rewrite Hadd, Hb, <- app_assoc. reflexivity.
        -- simpl. lia.
    + inversion H; subst. repeat split; auto.
      exists []. rewrite app_nil_r. split; [reflexivity | simpl; lia].
Qed.

(** A loop that returns applied its blocks one after the other, and stopped
    short of the last index exactly when the strategy answered [None]
    there. *)
Lemma run_loop_ok (lf : bool) (indices : list Z) :
  forall (s s' : BaseAlgorithm) out,
    run_loop lf indices s = (s', out, inr tt) ->
    exists steps added,
      applied s steps s' /\
      blocks s' = blocks s ++ added /\
      List.length added = List.length steps /\
      (List.length steps <= List.length indices)%nat /\
      ((List.length steps < List.length indices)%nat ->
       snd (find_next_block s' (nth (List.length steps) indices 0%Z) lf) = inr None /\
       In (LogNoBlock (nth (List.length steps) indices 0%Z)) out) /\
      (forall i, In (LogNoBlock i) out ->
                 (List.length steps < List.length indices)%nat /\
                 i = nth (List.length steps) indices 0%Z).
Proof.
  induction indices as [| i rest IH]; intros s s' out H.
  - inversion H; subst. exists [], []. rewrite app_nil_r.
    split; [constructor |].
    repeat split; auto; try (simpl in *; lia); try (simpl in *; contradiction).
  - rewrite run_loop_cons in H.
    destruct (find_next_block s i lf) as [lines [e | [b |]]] eqn:Hf;
      [discriminate | |].
    + destruct (__apply_and_save_block b Discovered i s)
        as [[s1 out1] [e | []]] eqn:Ha; [discriminate |].
      destruct (run_loop lf rest s1) as [[s2 out2] r2] eqn:Hl.
      inversion H; subst. clear H.
      apply IH in Hl as (steps & added & Hst & Hadd & Hlen & Hle & Hearly & Hlog).
      pose proof (apply_and_save_block_ok _ _ _ _ _ _ Ha) as (_ & _ & Hout).
      pose proof (apply_and_save_block_fields _ _ _ _ _ _ Ha) as (Hb & _).
      simpl in Hb.
      exists ((global_block s, global_block s1) :: steps), (saved b s :: added).
      repeat split.
      * econstructor; eassumption.
      * rewrite Hadd, Hb, <- app_assoc. reflexivity.
      * simpl. lia.
      * simpl. lia.
      * simpl in H. apply Hearly. lia.
      * simpl in H. simpl. apply in_or_app. right. apply in_or_app. right.
        apply Hearly. lia.
      * apply in_app_or in H as [H | H];
          [now apply no_exhaustion_in_lines in H |].
        apply in_app_or in H as [H | H].
        -- subst out1. destruct H as [H | H]; [discriminate |].
           now apply no_exhaustion_in_pruning_log in H.
        -- apply Hlog in H. simpl. lia.
      * apply in_app_or in H as [H | H];
          [now apply no_exhaustion_in_lines in H |].
        apply in_app_or in H as [H | H].
        -- subst out1. destruct H as [H | H]; [discriminate |].
           now apply no_exhaustion_in_pruning_log in H.
        -- apply Hlog in H. simpl. apply H.
    + inversion H; subst. clear H.
      exists [], []. rewrite app_nil_r.
      split; [constructor |].
      repeat split; try (simpl; lia).
      * simpl. now rewrite Hf.
      * simpl. apply in_or_app. right. now left.
      * apply in_app_or in H as [H | [H | []]];
          [now apply no_exhaustion_in_lines in H |].
        simpl. congruence.
Qed.

Lemma write_caption_eq (lf : bool) (s : BaseAlgorithm) :
  exists cap, write_caption lf s = (s, cap, inr tt) /\
              (forall i, ~ In (LogNoBlock i) cap) /\
              logged_indices cap = [].
Proof.
  unfold write_caption, bind, get.
  destruct lf, (log_file_caption s) as [c |]; simpl;
    try (exists []; repeat split; intros i []).
  destruct (str_truthy c); simpl.
  - eexists; repeat split. intros i [H | []]. discriminate.
  - exists []; repeat split; intros i [].
Qed.

Lemma run_refused (lf : bool) (s : BaseAlgorithm) :
  blocks s <> [] -> run lf s = (s, [], inl AssertionError).
Proof.
  intros H. unfold run, bind, get.
  destruct (blocks s); [contradiction | reflexivity].
Qed.

Lemma run_accepted (lf : bool) (s : BaseAlgorithm) :
  blocks s = [] ->
  exists cap, (forall i, ~ In (LogNoBlock i) cap) /\ logged_indices cap = [] /\
    run lf s =
      match run_loop lf (py_range 0 (max_block_number (params s))) s with
      | (s', out, inl e) => (s', cap ++ out, inl e)
      | (s', out, inr _) => (s', cap ++ out, inr (waterfall s'))
      end.
Proof.
  intros H. destruct (write_caption_eq lf s) as (cap & Hcap & Hno & Hidx).
  exists cap. split; [assumption |]. split; [assumption |].
  unfold run, bind, get. rewrite H. simpl. rewrite Hcap.
  destruct (run_loop lf (py_range 0 (max_block_number (params s))) s)
    as [[s' out] [e | []]]; simpl; [reflexivity |].
  unfold ret. now rewrite app_nil_r.
Qed.

Lemma py_range_length (n : Z) : List.length (py_range 0 n) = Z.to_nat n.
Proof. unfold py_range. now rewrite length_map, length_seq, Z.sub_0_r. Qed.

Lemma py_range_nth (n : Z) (k : nat) :
  (k < Z.to_nat n)%nat -> nth k (py_range 0 n) 0%Z = Z.of_nat k.
Proof.
  intros H. unfold py_range. rewrite Z.sub_0_r.
  change 0%Z with ((fun k => (0 + Z.of_nat k)%Z) 0%nat) at 2.
  rewrite map_nth, seq_nth by assumption. reflexivity.
Qed.

(** *** The pre-selection loop *)

Lemma preselect_loop_cons (i : Z) (ib : InputBlock) (rest : list InputBlock)
      (s : BaseAlgorithm) :
  preselect_loop i (ib :: rest) s =
    match __apply_and_save_block (make_block s (ib_keys ib) (ib_block_type ib))
                                 PreSelected (i + 1) s with
    | (s1, out1, inl e) => (s1, out1, inl e)
    | (s1, out1, inr _) =>
        let '(s2, out2, r) := preselect_loop (i + 1) rest s1 in
        (s2, out1 ++ out2, r)
    end.
Proof.
  cbn [preselect_loop]. unfold bind at 1. unfold get at 1. cbn [app].
  unfold bind.
  destruct (__apply_and_save_block _ PreSelected (i + 1) s) as [[s1 out1] [e | []]];
    [reflexivity |].
  destruct (preselect_loop (i + 1) rest s1) as [[s2 out2] r]. reflexivity.
Qed.

Lemma logged_indices_app (a b : list Event) :
  logged_indices (a ++ b) = logged_indices a ++ logged_indices b.
Proof.
  induction a as [| e a IH]; [reflexivity |].
  destruct e; simpl; now rewrite IH.
Qed.

Lemma logged_indices_pruning_log (s : BaseAlgorithm) :
  logged_indices (pruning_log s) = [].
Proof.
  unfold pruning_log.
  induction (filter (fun x => negb (discriminates (df s) x)) (dims s));
    [reflexivity | assumption].
Qed.

Lemma logged_indices_lines (lines : list string) :
  logged_indices (map FileWrite lines) = [].
Proof. induction lines; [reflexivity | assumption]. Qed.

Lemma firstn_seq_le (k : nat) :
  forall m a, (k <= m)%nat -> firstn k (seq a m) = seq a k.
Proof.
  induction k as [| k IH]; intros m a H; [reflexivity |].
  destruct m as [| m]; [lia |]. cbn [seq firstn]. f_equal. apply IH. lia.
Qed.

Lemma firstn_py_range (n : Z) (k : nat) :
  (k <= Z.to_nat n)%nat -> firstn k (py_range 0 n) = py_range 0 (Z.of_nat k).
Proof.
  intros H. unfold py_range.
  rewrite firstn_map, !Z.sub_0_r, Nat2Z.id, firstn_seq_le by assumption.
  reflexivity.
Qed.

(** A loop that returns logged one block diagnostic per block it appended,
    under the indices it visited, in order. *)
Lemma run_loop_indices (lf : bool) (indices : list Z) :
  forall (s s' : BaseAlgorithm) out,
    run_loop lf indices s = (s', out, inr tt) ->
    exists added,
      blocks s' = blocks s ++ added /\
      (List.length added <= List.length indices)%nat /\
      logged_indices out = firstn (List.length added) indices.
Proof.
  induction indices as [| i rest IH]; intros s s' out H.
  - inversion H; subst. exists []. rewrite app_nil_r. auto.
  - rewrite run_loop_cons in H.
    destruct (find_next_block s i lf) as [lines [e | [b |]]];
      [discriminate | |].
    + destruct (__apply_and_save_block b Discovered i s)
        as [[s1 out1] [e | []]] eqn:Ha; [discriminate |].
      destruct (run_loop lf rest s1) as [[s2 out2] r2] eqn:Hl.
      inversion H; subst. clear H.
      apply IH in Hl as (added & Hadd & Hlen & Hidx).
      pose proof (apply_and_save_block_ok _ _ _ _ _ _ Ha) as (_ & _ & Hout).
      pose proof (apply_and_save_block_fields _ _ _ _ _ _ Ha) as (Hb & _).
      simpl in Hb. exists (saved b s :: added). split; [| split].
      * rewrite Hadd, Hb, <- app_assoc. reflexivity.
      * simpl. lia.
      * rewrite !logged_indices_app, logged_indices_lines, Hout, Hidx.
        unfold diagnostic. cbn [logged_indices].
        now rewrite logged_indices_pruning_log.
    + inversion H; subst. exists []. rewrite app_nil_r.
      split; [reflexivity |]. split; [simpl; lia |].
      now rewrite logged_indices_app, logged_indices_lines.
Qed.

Lemma consecutive_from (i : Z) (n : nat) :
  map (fun k => (i + 1 + Z.of_nat k)%Z) (seq 0 (S n))
  = (i + 1)%Z :: map (fun k => (i + 1 + 1 + Z.of_nat k)%Z) (seq 0 n).
Proof.
  cbn [seq map]. rewrite <- seq_shift, map_map. f_equal; [lia |].
  apply map_ext. intros k. lia.
Qed.

(** A pre-selection loop that returns applied every key-set, in order, each
    on the residual of the previous ones. *)
Lemma preselect_loop_ok (ibs : list InputBlock) :
  forall (i : Z) (s s' : BaseAlgorithm) out,
    preselect_loop i ibs s = (s', out, inr tt) ->
    (exists steps, applied s steps s' /\ List.length steps = List.length ibs) /\
    logged_indices out
      = map (fun k => (i + 1 + Z.of_nat k)%Z) (seq 0 (List.length ibs)) /\
    pre_selected_blocks s'
      = pre_selected_blocks s
          ++ fst (residual (profit_measure (params s)) (df s) (global_block s)
                           (ratio_to_initial s) ibs) /\
    (df s', global_block s', ratio_to_initial s')
      = snd (residual (profit_measure (params s)) (df s) (global_block s)
                      (ratio_to_initial s) ibs) /\
    blocks s' = blocks s /\
    params s' = params s /\
    (no_singleton_dimension s -> no_singleton_dimension s').
Proof.
  induction ibs as [| ib rest IH]; intros i s s' out H.
  - inversion H; subst. simpl. rewrite app_nil_r.
    repeat split; auto. exists []. split; [constructor | reflexivity].
  - rewrite preselect_loop_cons in H.
    destruct (__apply_and_save_block _ PreSelected (i + 1) s)
      as [[s1 out1] [e | []]] eqn:Ha; [discriminate |].
    destruct (preselect_loop (i + 1) rest s1) as [[s2 out2] r] eqn:Hl.
    inversion H; subst. clear H.
    pose proof (apply_and_save_block_ok _ _ _ _ _ _ Ha) as (_ & _ & Hout).
    pose proof (apply_and_save_block_preselected _ _ _ _ _ Ha) as Hblocks.
    pose proof (apply_and_save_block_fields _ _ _ _ _ _ Ha)
      as (Hb & Hp & _ & _ & Hdf & Hgb & Hr & Hn).
    apply IH in Hl
      as ((steps & Hst & Hlen) & Hidx & Hpre & Hlast & Hbl & Hpar & Hinv).
    simpl in Hb. rewrite Hp, Hdf, Hr, Hgb in Hpre, Hlast.
    unfold _make_global_block in Hpre, Hlast, Hgb. rewrite Hgb in Hr.
    cbn [residual]. unfold make_block in *.
    destruct (residual _ _ _ _ rest) as [sbs last]. cbn [fst snd] in *.
    repeat split; try congruence.
    + exists ((global_block s, global_block s1) :: steps). split.
      * econstructor; eassumption.
      * simpl. now rewrite Hlen.
    + rewrite Hout, logged_indices_app. unfold diagnostic. cbn [logged_indices].
      rewrite logged_indices_pruning_log, Hidx.
      cbn [app List.length]. now rewrite consecutive_from.
    + rewrite Hpre, Hb, <- app_assoc. reflexivity.
    + intros _. apply Hinv, Hn.
Qed.

Lemma init_ok (p : AlgorithmParameters) (d : DataFrame) out (s : BaseAlgorithm) :
  __init__ p d = (out, inr s) ->
  exists out2,
    preselect_loop (- Z.of_nat (List.length (param_pre_selected_blocks p)) - 1)
                   (param_pre_selected_blocks p) (pruned (init_fields p d))
      = (s, out2, inr tt) /\
    out = pruning_log (init_fields p d) ++ out2.
Proof.
  unfold __init__.
  destruct (value_list_contains CORRECT_MODES (param_correct_mode p));
    [| discriminate].
  unfold bind at 1. rewrite remove_unnecessary_dimensions_eq.
  destruct (preselect_loop _ _ (pruned (init_fields p d))) as [[s1 out2] [e | []]];
    intros H; inversion H; subst.
  eexists; split; reflexivity.
Qed.

Lemma py_range_pos (n : Z) :
  (0 < n)%Z -> exists rest, py_range 0 n = 0%Z :: rest.
Proof.
  intros H. unfold py_range. rewrite Z.sub_0_r.
  destruct (Z.to_nat n) as [| k] eqn:Hk; [lia |].
  eexists. reflexivity.
Qed.

Lemma applied_ratio (s s' : BaseAlgorithm) (steps : list Step) :
  applied s steps s' ->
  ratio_to_initial s' = ratio_product (ratio_to_initial s) steps.
Proof.
  induction 1 as [s | s b blist index s1 out steps s2 Ha _ IH]; [reflexivity |].
  apply apply_and_save_block_fields in Ha as (_ & _ & _ & _ & _ & _ & Hr & _).
  rewrite IH, Hr. reflexivity.
Qed.

(** What [run] leaves, whatever its outcome. *)
Lemma run_any (lf : bool) (s s' : BaseAlgorithm) out r :
  run lf s = (s', out, r) ->
  (exists added, blocks s' = blocks s ++ added /\
     (List.length added <= Z.to_nat (max_block_number (params s)))%nat) /\
  (no_singleton_dimension s -> no_singleton_dimension s').
Proof.
  intros H. destruct (blocks s) as [| sb l] eqn:Hb.
  - destruct (run_accepted lf s Hb) as (cap & _ & _ & Hrun). rewrite Hrun in H.
    destruct (run_loop lf (py_range 0 (max_block_number (params s))) s)
      as [[s1 out1] r1] eqn:Hl.
    apply run_loop_any in Hl as ((added & Hadd & Hlen) & _ & _ & _ & Hinv).
    rewrite py_range_length in Hlen. rewrite Hb in Hadd.
    destruct r1 as [e | []]; inversion H; subst; split; eauto.
  - rewrite run_refused in H by (rewrite Hb; discriminate).
    inversion H; subst. split; [| auto].
    exists []. rewrite app_nil_r. split; [assumption | simpl; lia].
Qed.

(** What a [run] that returns has done. *)
Lemma run_ok (lf : bool) (s s' : BaseAlgorithm) out (w : Waterfall) :
  run lf s = (s', out, inr w) ->
  blocks s = [] /\ w = waterfall s' /\
  exists cap out1,
    out = cap ++ out1 /\ (forall i, ~ In (LogNoBlock i) cap) /\
    logged_indices cap = [] /\
    run_loop lf (py_range 0 (max_block_number (params s))) s = (s', out1, inr tt).
Proof.
  intros H. destruct (blocks s) as [| sb l] eqn:Hb.
  - destruct (run_accepted lf s Hb) as (cap & Hcap & Hidx & Hrun). rewrite Hrun in H.
    destruct (run_loop lf (py_range 0 (max_block_number (params s))) s)
      as [[s1 out1] [e | []]] eqn:Hl; inversion H; subst.
    repeat split. exists cap, out1. auto.
  - rewrite run_refused in H by (rewrite Hb; discriminate). discriminate.
Qed.

(** *** The claims about the correction step *)

(** C1.  Under the delete-matched-rows mode, a correction step that
    returns has installed the global aggregate of the reduced table, and
    that aggregate plus the block gives back the previous aggregate, for
    current revenue, reference revenue, current profit and reference
    profit, each up to [float_eq].  When one of the four equalities does
    not hold the step raises [AssertionError], and so do apply-and-save,
    the loop of [run] at whatever index the block was found, and [run]
    itself when it is the first block found. *)
Theorem conservation_is_checked (b : AlgoBlock) (s : BaseAlgorithm) :
  correct_mode s = "DEL" ->
  (forall s' out,
      correct_facts b s = (s', out, inr tt) ->
      df s' = out_block (df s) b /\
      global_block s' = _make_global_block s (df s') /\
      float_eq (cur_revenue (global_block s') + cur_revenue b)
               (cur_revenue (global_block s)) = true /\
      float_eq (ref_revenue (global_block s') + ref_revenue b)
               (ref_revenue (global_block s)) = true /\
      float_eq (cur_profit (global_block s') + cur_profit b)
               (cur_profit (global_block s)) = true /\
      float_eq (ref_profit (global_block s') + ref_profit b)
               (ref_profit (global_block s)) = true) /\
  (conserved b s = false ->
   correct_facts b s = (s, [], inl AssertionError) /\
   (forall blist index,
       __apply_and_save_block b blist index s
       = (s, [diagnostic b index s], inl AssertionError)) /\
   (forall lf i rest lines,
       find_next_block s i lf = (lines, inr (Some b)) ->
       run_loop lf (i :: rest) s
       = (s, map FileWrite lines ++ [diagnostic b i s], inl AssertionError)) /\
   (forall lf lines,
       blocks s = [] -> (0 < max_block_number (params s))%Z ->
       find_next_block s 0 lf = (lines, inr (Some b)) ->
       exists out, run lf s = (s, out, inl AssertionError))).
Proof.
  intros Hmode. split.
  - intros s' out H. apply correct_facts_inv in H as (_ & _ & _ & Hc & _ & ->).
    unfold conserved in Hc. apply andb_prop in Hc as [Hc H4].
    apply andb_prop in Hc as [Hc H3]. apply andb_prop in Hc as [H1 H2].
    cbn [corrected df global_block]. auto 10.
  - intros Hc.
    assert (Hf : correct_facts b s = (s, [], inl AssertionError)).
    { rewrite (correct_facts_DEL b s Hmode), Hc, andb_false_r. reflexivity. }
    assert (Ha : forall blist index,
               __apply_and_save_block b blist index s
               = (s, [diagnostic b index s], inl AssertionError)).
    { intros blist index. rewrite apply_and_save_block_eq, Hf. reflexivity. }
    assert (Hl : forall lf i rest lines,
               find_next_block s i lf = (lines, inr (Some b)) ->
               run_loop lf (i :: rest) s
               = (s, map FileWrite lines ++ [diagnostic b i s], inl AssertionError)).
    { intros lf i rest lines Hfind. rewrite run_loop_cons, Hfind, Ha. reflexivity. }
    repeat split; auto.
    intros lf lines Hb Hn Hfind.
    destruct (run_accepted lf s Hb) as (cap & _ & _ & Hrun).
    destruct (py_range_pos _ Hn) as (rest & Hrange).
    rewrite Hrun, Hrange, (Hl lf 0%Z rest lines Hfind). eauto.
Qed.

(** C9.  Under the delete-matched-rows mode, a correction step that
    returns has found the current revenue of the old and of the new global
    aggregate strictly positive, and only then multiplied the ratio by
    their quotient.  When either is not strictly positive (zero, negative
    or not a number) the step raises [AssertionError] and leaves the
    object, hence the ratio, as it was: no quotient is formed. *)
Theorem revenue_is_positive_before_division (b : AlgoBlock) (s : BaseAlgorithm) :
  correct_mode s = "DEL" ->
  (forall s' out,
      correct_facts b s = (s', out, inr tt) ->
      (0 <? cur_revenue (global_block s))%float = true /\
      (0 <? cur_revenue (global_block s'))%float = true /\
      ratio_to_initial s'
      = (ratio_to_initial s
         * (cur_revenue (global_block s') / cur_revenue (global_block s)))%float) /\
  ((0 <? cur_revenue (global_block s))%float = false \/
   (0 <? cur_revenue (_make_global_block s (out_block (df s) b)))%float = false ->
   correct_facts b s = (s, [], inl AssertionError)).
Proof.
  intros Hmode. split.
  - intros s' out H. apply correct_facts_inv in H as (_ & _ & _ & _ & Hp & ->).
    unfold revenue_positive in Hp. apply andb_prop in Hp as [H1 H2].
    cbn [corrected global_block ratio_to_initial]. auto.
  - intros H. rewrite (correct_facts_DEL b s Hmode).
    replace (revenue_positive b s) with false; [now rewrite andb_false_r |].
    unfold revenue_positive. destruct H as [-> | ->];
      [reflexivity | now rewrite andb_false_r].
Qed.

(** C10.  Apply-and-save is all or nothing.  A stale parent, or under the
    delete-matched-rows mode a conservation mismatch or a revenue that is
    not strictly positive, makes it raise [AssertionError]; whenever it
    raises, the target list, the working table, the global aggregate and
    the ratio are what they were (the whole object is); and when it
    returns, every check had passed. *)
Theorem apply_and_save_is_atomic (b : AlgoBlock) (blist : BlockList) (index : Z)
        (s : BaseAlgorithm) :
  (parent_is b (global_block s) = false \/
   (correct_mode s = "DEL" /\
    (conserved b s = false \/ revenue_positive b s = false)) ->
   __apply_and_save_block b blist index s
   = (s, [diagnostic b index s], inl AssertionError)) /\
  (forall s' out e,
      __apply_and_save_block b blist index s = (s', out, inl e) ->
      block_list blist s' = block_list blist s /\
      df s' = df s /\
      global_block s' = global_block s /\
      ratio_to_initial s' = ratio_to_initial s /\
      s' = s) /\
  (forall s' out,
      __apply_and_save_block b blist index s = (s', out, inr tt) ->
      parent_is b (global_block s) = true /\
      conserved b s = true /\
      revenue_positive b s = true /\
      block_list blist s' = block_list blist s ++ [saved b s]).
Proof.
  split; [| split].
  - intros H. rewrite apply_and_save_block_eq.
    destruct (String.eqb (correct_mode s) "DEL") eqn:Hmode.
    + apply String.eqb_eq in Hmode. rewrite (correct_facts_DEL b s Hmode).
      replace (parent_is b (global_block s) && conserved b s && revenue_positive b s)
        with false; [reflexivity |].
      destruct H as [-> | (_ & [-> | ->])];
        rewrite ?andb_false_r; reflexivity.
    + rewrite (correct_facts_other_mode b s Hmode).
      destruct H as [-> | (H & _)]; [reflexivity |].
      rewrite H in Hmode. discriminate.
  - intros s' out e H. apply apply_and_save_block_fails in H as (_ & -> & _).
    auto.
  - intros s' out H.
    pose proof (apply_and_save_block_fields _ _ _ _ _ _ H) as (Hb & _).
    apply apply_and_save_block_ok in H as (H & _).
    apply correct_facts_inv in H as (_ & _ & Hp & Hc & Hr & _). auto.
Qed.

(** *** The claims about the bookkeeping *)

(** C2.  A freshly built object has ratio [1.0].  Every block that is
    applied is saved once, at the end of its target list, as a copy of its
    fields with the contribution multiplied by the ratio as it stood
    before the step; the step then updates the ratio.  So a block applied
    while the ratio is [1.0] is saved with its raw contribution, and a
    block applied right after such a step is saved with its raw
    contribution times the quotient of the revenue bases. *)
Theorem scaled_contribution_uses_previous_ratio :
  (forall p d, ratio_to_initial (pruned (init_fields p d)) = 1%float) /\
  (forall (b : AlgoBlock) (blist : BlockList) (index : Z)
          (s s' : BaseAlgorithm) out,
      __apply_and_save_block b blist index s = (s', out, inr tt) ->
      exists sb,
        block_list blist s' = block_list blist s ++ [sb] /\
        set_contrib_bps sb (contrib_bps b) = from_block b /\
        sb_contrib_bps sb = (contrib_bps b * ratio_to_initial s)%float /\
        ratio_to_initial s'
        = (ratio_to_initial s
           * (cur_revenue (global_block s') / cur_revenue (global_block s)))%float /\
        (ratio_to_initial s = 1%float -> sb_contrib_bps sb = contrib_bps b) /\
        (forall s0 b0 blist0 index0 out0,
            ratio_to_initial s0 = 1%float ->
            __apply_and_save_block b0 blist0 index0 s0 = (s, out0, inr tt) ->
            sb_contrib_bps sb
            = (contrib_bps b
               * (cur_revenue (global_block s) / cur_revenue (global_block s0)))%float)).
Proof.
  split; [reflexivity |].
  intros b blist index s s' out H.
  apply apply_and_save_block_fields in H as (Hb & _ & _ & _ & _ & _ & Hr & _).
  exists (saved b s). repeat split; auto.
  - intros H1. cbn [saved set_contrib_bps sb_contrib_bps].
    now rewrite H1, float_mul_1_r.
  - intros s0 b0 blist0 index0 out0 H0 Ha.
    apply apply_and_save_block_fields in Ha as (_ & _ & _ & _ & _ & _ & Hr0 & _).
    cbn [saved set_contrib_bps sb_contrib_bps].
    now rewrite Hr0, H0, float_mul_1_l.
Qed.

(** C3.  The ratio is [1.0] when the object is built, and after any
    number of applied blocks it is the previous ratio multiplied, step
    after step, by each step's new current revenue over its old current
    revenue.  The constructor and [run] are such sequences of steps: one
    per pre-selected block, and one per discovered block. *)
Theorem ratio_is_product_of_step_ratios :
  (forall p d, ratio_to_initial (pruned (init_fields p d)) = 1%float) /\
  (forall (s s' : BaseAlgorithm) (steps : list Step),
      applied s steps s' ->
      ratio_to_initial s' = ratio_product (ratio_to_initial s) steps) /\
  (forall p d out (s : BaseAlgorithm),
      __init__ p d = (out, inr s) ->
      exists steps,
        applied (pruned (init_fields p d)) steps s /\
        List.length steps = List.length (param_pre_selected_blocks p) /\
        ratio_to_initial s = ratio_product 1%float steps) /\
  (forall lf (s s' : BaseAlgorithm) out (w : Waterfall),
      run lf s = (s', out, inr w) ->
      exists steps,
        applied s steps s' /\
        List.length steps = List.length (wf_blocks w) /\
        ratio_to_initial s' = ratio_product (ratio_to_initial s) steps).
Proof.
  split; [reflexivity |]. split; [exact applied_ratio |]. split.
  - intros p d out s H. apply init_ok in H as (out2 & H & _).
    apply preselect_loop_ok in H as ((steps & Hst & Hlen) & _).
    exists steps. repeat split; auto.
    now rewrite (applied_ratio _ _ _ Hst).
  - intros lf s s' out w H. apply run_ok in H as (Hb & -> & cap & out1 & _ & _ & _ & H).
    apply run_loop_ok in H as (steps & added & Hst & Hadd & Hlen & _).
    exists steps. repeat split; auto using applied_ratio.
    cbn [waterfall wf_blocks]. rewrite Hadd, Hb. simpl. auto.
Qed.

(** C4.  [run] appends at most [max_block_number] blocks, whatever its
    outcome.  When it returns, the blocks of the result are the
    discovered blocks, and there are fewer than [max_block_number] of them
    exactly when the "no block found" diagnostic was logged for the index
    that follows the last block, the strategy having answered [None]
    there.  A [None] from the strategy ends the loop normally, with
    nothing applied. *)
Theorem run_stops_at_limit_or_exhaustion (lf : bool) (s : BaseAlgorithm) :
  (forall s' out r,
      run lf s = (s', out, r) ->
      exists added,
        blocks s' = blocks s ++ added /\
        (Z.of_nat (List.length added) <= Z.max 0 (max_block_number (params s)))%Z) /\
  (forall s' out (w : Waterfall),
      run lf s = (s', out, inr w) ->
      wf_blocks w = blocks s' /\
      ((Z.of_nat (List.length (blocks s')) < max_block_number (params s))%Z <->
       In (LogNoBlock (Z.of_nat (List.length (blocks s')))) out) /\
      ((Z.of_nat (List.length (blocks s')) < max_block_number (params s))%Z ->
       snd (find_next_block s' (Z.of_nat (List.length (blocks s'))) lf) = inr None) /\
      (forall i, In (LogNoBlock i) out -> i = Z.of_nat (List.length (blocks s')))) /\
  (forall i rest lines,
      find_next_block s i lf = (lines, inr None) ->
      run_loop lf (i :: rest) s
      = (s, map FileWrite lines ++ [LogNoBlock i], inr tt)).
Proof.
  split; [| split].
  - intros s' out r H. apply run_any in H as ((added & Hadd & Hlen) & _).
    exists added. split; [assumption | lia].
  - intros s' out w H.
    apply run_ok in H as (Hb & -> & cap & out1 & -> & Hcap & _ & H).
    apply run_loop_ok in H
      as (steps & added & _ & Hadd & Hlen & Hle & Hearly & Hlog).
    rewrite Hb in Hadd. simpl in Hadd. rewrite Hadd, Hlen.
    rewrite py_range_length in Hle, Hearly, Hlog.
    assert (Hlog' : forall i, In (LogNoBlock i) (cap ++ out1) ->
              (List.length steps < Z.to_nat (max_block_number (params s)))%nat /\
              i = Z.of_nat (List.length steps)).
    { intros i Hi. apply in_app_or in Hi as [Hi | Hi];
        [now apply Hcap in Hi |].
      apply Hlog in Hi as [Hlt ->]. split; [assumption |].
      now apply py_range_nth. }
    split; [exact Hadd |]. split; [split |]; [| | split].
    + intros Hlt.
      assert (Hlt' : (List.length steps
                      < Z.to_nat (max_block_number (params s)))%nat) by lia.
      apply in_or_app. right.
      rewrite <- (py_range_nth _ _ Hlt'). now apply Hearly.
    + intros Hi. apply Hlog' in Hi as [Hlt _]. lia.
    + intros Hlt.
      assert (Hlt' : (List.length steps
                      < Z.to_nat (max_block_number (params s)))%nat) by lia.
      rewrite <- (py_range_nth _ _ Hlt'). now apply Hearly.
    + intros i Hi. now apply Hlog' in Hi.
  - intros i rest lines Hf. now rewrite run_loop_cons, Hf.
Qed.

(** C5, as the code has it.  [run] refuses to start when the list of
    discovered blocks is not empty, and then does nothing: the object is
    untouched and nothing is logged or written.  So a second [run] fails
    on every object whose first [run] returned at least one block.  A [run]
    that returned no block has left the object as it found it. *)
Theorem run_is_refused_after_blocks_were_found :
  (forall lf (s : BaseAlgorithm),
      blocks s <> [] -> run lf s = (s, [], inl AssertionError)) /\
  (forall lf lf' (s s1 : BaseAlgorithm) out (w : Waterfall),
      run lf s = (s1, out, inr w) ->
      wf_blocks w <> [] ->
      run lf' s1 = (s1, [], inl AssertionError)) /\
  (forall lf (s s1 : BaseAlgorithm) out (w : Waterfall),
      run lf s = (s1, out, inr w) ->
      wf_blocks w = [] ->
      s1 = s).
Proof.
  split; [exact run_refused |]. split.
  - intros lf lf' s s1 out w H Hw. apply run_ok in H as (_ & -> & _).
    apply run_refused. exact Hw.
  - intros lf s s1 out w H Hw.
    apply run_ok in H as (Hb & -> & cap & out1 & _ & _ & _ & H).
    apply run_loop_ok in H as (steps & added & Hst & Hadd & Hlen & _).
    cbn [waterfall wf_blocks] in Hw. rewrite Hw, Hb in Hadd.
    destruct added; [| discriminate].
    destruct steps; [| discriminate].
    now inversion Hst.
Qed.

(** C7.  Pruning keeps, in their order, exactly the tracked dimensions
    that do not have exactly one value in the working table as it is when
    pruning is called, and changes nothing else.  No tracked dimension
    has exactly one value in the working table once the constructor has
    returned and once a block has been applied; [run] keeps it so,
    whatever its outcome. *)
Theorem no_singleton_dimension_is_tracked :
  (forall s : BaseAlgorithm,
      __remove_unnecessary_dimensions s
      = (set_dims (filter (fun x => negb (Nat.eqb (List.length (unique (df s) x)) 1))
                          (dims s)) s,
         pruning_log s, inr tt)) /\
  (forall p d out (s : BaseAlgorithm),
      __init__ p d = (out, inr s) -> no_singleton_dimension s) /\
  (forall (b : AlgoBlock) (blist : BlockList) (index : Z)
          (s s' : BaseAlgorithm) out,
      __apply_and_save_block b blist index s = (s', out, inr tt) ->
      no_singleton_dimension s') /\
  (forall lf (s s' : BaseAlgorithm) out r,
      no_singleton_dimension s ->
      run lf s = (s', out, r) ->
      no_singleton_dimension s').
Proof.
  split; [exact remove_unnecessary_dimensions_eq |]. split; [| split].
  - intros p d out s H. apply init_ok in H as (out2 & H & _).
    apply preselect_loop_ok in H as (_ & _ & _ & _ & _ & _ & Hinv).
    apply Hinv, pruned_no_singleton.
  - intros b blist index s s' out H.
    now apply apply_and_save_block_fields in H.
  - intros lf s s' out r Hs H. apply run_any in H as (_ & Hinv). auto.
Qed.

(** C8.  When the constructor returns, the block diagnostics it logged
    carry the indices [-n, ..., -1] in this order, [n] being the number of
    pre-selected key-sets; the pre-selected list holds one saved block per
    key-set, in the order supplied, each built on the table and the global
    aggregate left by the correction of the previous ones; the object
    holds the last residual, and no discovered block.  A [run] that returns
    logged its blocks under the indices [0, 1, ...], one per block. *)
Theorem preselected_blocks_in_order :
  (forall (p : AlgorithmParameters) (d : DataFrame) out (s : BaseAlgorithm),
      __init__ p d = (out, inr s) ->
      let ibs := param_pre_selected_blocks p in
      let chain := residual (profit_measure p) d
                            (new_AlgoBlock d (profit_measure p) None None None)
                            1%float ibs in
      logged_indices out = py_range (- Z.of_nat (List.length ibs)) 0 /\
      pre_selected_blocks s = fst chain /\
      map sb_keys (pre_selected_blocks s) = map (fun ib => Some (ib_keys ib)) ibs /\
      map sb_block_type (pre_selected_blocks s)
      = map (fun ib => Some (ib_block_type ib)) ibs /\
      (df s, global_block s, ratio_to_initial s) = snd chain /\
      blocks s = []) /\
  (forall lf (s s' : BaseAlgorithm) out (w : Waterfall),
      run lf s = (s', out, inr w) ->
      logged_indices out = py_range 0 (Z.of_nat (List.length (wf_blocks w)))).
Proof.
  split.
  - intros p d out s H ibs chain. apply init_ok in H as (out2 & H & ->).
    apply preselect_loop_ok in H as (_ & Hidx & Hpre & Hlast & Hbl & _).
    cbn [pruned init_fields set_dims pre_selected_blocks params df global_block
         ratio_to_initial blocks app] in Hpre, Hlast, Hbl.
    fold ibs in Hidx, Hpre, Hlast. fold chain in Hpre, Hlast.
    assert (Hkeys : forall pm d0 gb r l,
               map sb_keys (fst (residual pm d0 gb r l))
               = map (fun ib => Some (ib_keys ib)) l /\
               map sb_block_type (fst (residual pm d0 gb r l))
               = map (fun ib => Some (ib_block_type ib)) l).
    { intros pm d0 gb r l. revert d0 gb r.
      induction l as [| ib rest IH]; intros d0 gb r; [split; reflexivity |].
      cbn [residual].
      specialize (IH (out_block d0 (new_AlgoBlock d0 pm (Some (ib_keys ib))
                                                  (Some (ib_block_type ib)) (Some gb)))
                     (new_AlgoBlock
                        (out_block d0 (new_AlgoBlock d0 pm (Some (ib_keys ib))
                                                     (Some (ib_block_type ib))
                                                     (Some gb)))
                        pm None None None)).
      match goal with
      | |- context [residual pm ?d1 ?g1 ?r1 rest] =>
          specialize (IH r1); destruct (residual pm d1 g1 r1 rest) as [sbs last]
      end.
      destruct IH as [IH1 IH2]. cbn [fst map] in *. rewrite IH1, IH2.
      split; reflexivity. }
    repeat split; auto.
    + rewrite logged_indices_app, logged_indices_pruning_log, Hidx.
      unfold py_range. cbn [app].
      replace (Z.to_nat (0 - - Z.of_nat (List.length ibs))) with (List.length ibs) by lia.
      apply map_ext. intros k. lia.
    + rewrite Hpre. apply Hkeys.
    + rewrite Hpre. apply Hkeys.
  - intros lf s s' out w H.
    apply run_ok in H as (Hb & -> & cap & out1 & -> & _ & Hcap & H).
    apply run_loop_indices in H as (added & Hadd & Hlen & Hidx).
    rewrite py_range_length in Hlen.
    rewrite logged_indices_app, Hcap, Hidx. cbn [app waterfall wf_blocks].
    rewrite Hadd, Hb. cbn [app]. now apply firstn_py_range.
Qed.

End Properties.

(** ** The orchestrator on the concrete table *)

Import Sales.

(** The scenario: Region=EU is saved with -50, the ratio becomes 0.7,
    Product=Widgets is saved with -14, and no third block is found. *)
Example scenario_run :
  map sb_contrib_bps (blocks ran) = [(-50)%float; (-14)%float] /\
  ratio_to_initial after_eu = (700000 / 1000000)%float /\
  logged_indices log_ran = [0%Z; 1%Z] /\
  In (LogNoBlock 2) log_ran.
Proof. vm_compute. repeat split; try reflexivity. auto 10. Qed.

Lemma applied_eu :
  __apply_and_save_block eu Discovered 0 fresh = (after_eu, log_eu, inr tt).
Proof. vm_compute. reflexivity. Qed.

Lemma applied_widgets :
  __apply_and_save_block widgets Discovered 1 after_eu
  = (after_widgets, log_widgets, inr tt).
Proof. vm_compute. reflexivity. Qed.

Lemma run_returned : run false fresh = (ran, log_ran, inr (waterfall ran)).
Proof. vm_compute. reflexivity. Qed.

Lemma constructor_returned : __init__ preselected facts = (log_built, inr built).
Proof. vm_compute. reflexivity. Qed.

(** C1 on the table: applying Region=EU passes the four checks, and the
    forged block is refused. *)
Lemma conservation_is_checked_on_sales :
  correct_mode fresh = "DEL" /\
  float_eq (cur_revenue (global_block (corrected eu fresh)) + cur_revenue eu)
           (cur_revenue (global_block fresh)) = true /\
  conserved forged fresh = false /\
  correct_facts forged fresh = (fresh, [], inl AssertionError).
Proof.
  assert (Hmode : correct_mode fresh = "DEL") by reflexivity.
  assert (Hok : correct_facts eu fresh = (corrected eu fresh, [], inr tt))
    by (vm_compute; reflexivity).
  assert (Hbad : conserved forged fresh = false) by (vm_compute; reflexivity).
  destruct (conservation_is_checked eu fresh Hmode) as [Hpass _].
  destruct (conservation_is_checked forged fresh Hmode) as [_ Hfail].
  split; [exact Hmode |]. split; [| split; [exact Hbad |]].
  - exact (proj1 (proj2 (proj2 (Hpass _ _ Hok)))).
  - exact (proj1 (Hfail Hbad)).
Defined.

(** C9 on the table: Region=EU leaves a positive revenue, and the block that
    would empty the table is refused before any quotient is formed. *)
Lemma revenue_is_positive_before_division_on_sales :
  correct_mode fresh = "DEL" /\
  (0 <? cur_revenue (global_block (corrected eu fresh)))%float = true /\
  (0 <? cur_revenue (_make_global_block fresh (out_block (df fresh) everything)))%float
  = false /\
  correct_facts everything fresh = (fresh, [], inl AssertionError).
Proof.
  assert (Hmode : correct_mode fresh = "DEL") by reflexivity.
  assert (Hok : correct_facts eu fresh = (corrected eu fresh, [], inr tt))
    by (vm_compute; reflexivity).
  assert (Hzero : (0 <? cur_revenue (_make_global_block fresh
                                       (out_block (df fresh) everything)))%float
                  = false) by (vm_compute; reflexivity).
  destruct (revenue_is_positive_before_division eu fresh Hmode) as [Hpass _].
  destruct (revenue_is_positive_before_division everything fresh Hmode) as [_ Hfail].
  split; [exact Hmode |]. split; [| split; [exact Hzero |]].
  - exact (proj1 (proj2 (Hpass _ _ Hok))).
  - exact (Hfail (or_intror Hzero)).
Defined.

(** C10 on the table: the forged block is refused and leaves the object as
    it was; Region=EU is appended once its checks have passed. *)
Lemma apply_and_save_is_atomic_on_sales :
  conserved forged fresh = false /\
  __apply_and_save_block forged Discovered 0 fresh
  = (fresh, [diagnostic forged 0 fresh], inl AssertionError) /\
  blocks after_eu = blocks fresh ++ [saved eu fresh].
Proof.
  assert (Hbad : conserved forged fresh = false) by (vm_compute; reflexivity).
  destruct (apply_and_save_is_atomic forged Discovered 0 fresh) as (Hfail & _ & _).
  destruct (apply_and_save_is_atomic eu Discovered 0 fresh) as (_ & _ & Hpass).
  split; [exact Hbad |]. split.
  - apply Hfail. right. split; [reflexivity | left; exact Hbad].
  - exact (proj2 (proj2 (proj2 (Hpass _ _ applied_eu)))).
Defined.

(** C2 on the table: Product=Widgets, applied after Region=EU took the
    revenue base from 1,000,000 to 700,000, is saved with -20 x 0.7 = -14. *)
Lemma scaled_contribution_on_sales :
  contrib_bps widgets = (-20)%float /\
  exists sb,
    blocks after_widgets = blocks after_eu ++ [sb] /\
    sb_contrib_bps sb = (-20 * (700000 / 1000000))%float /\
    sb_contrib_bps sb = (-14)%float.
Proof.
  split; [vm_compute; reflexivity |].
  destruct (proj2 scaled_contribution_uses_previous_ratio
                  widgets Discovered 1%Z after_eu after_widgets log_widgets
                  applied_widgets)
    as (sb & Hlist & _ & _ & _ & _ & Hsecond).
  exists sb. split; [exact Hlist |].
  specialize (Hsecond fresh eu Discovered 0%Z log_eu eq_refl applied_eu).
  rewrite Hsecond. split; vm_compute; reflexivity.
Defined.

(** C3 on the table: the scripted run is two steps, and the ratio it leaves
    is the product of their two ratios, from 1.0. *)
Lemma ratio_is_product_of_step_ratios_on_sales :
  exists steps,
    applied fresh steps ran /\
    List.length steps = 2%nat /\
    ratio_to_initial ran = ratio_product 1%float steps.
Proof.
  destruct (proj2 (proj2 (proj2 ratio_is_product_of_step_ratios))
                  false fresh ran log_ran (waterfall ran) run_returned)
    as (steps & Happlied & Hlen & Hratio).
  exists steps. split; [exact Happlied |]. split; [exact Hlen | exact Hratio].
Defined.

(** C4 on the table: with a limit of 10 the scripted run returns two blocks,
    having logged that no block was found at index 2. *)
Lemma run_stops_at_limit_or_exhaustion_on_sales :
  List.length (blocks ran) = 2%nat /\
  max_block_number (params fresh) = 10%Z /\
  In (LogNoBlock 2) log_ran /\
  snd (find_next_block ran 2 false) = inr None.
Proof.
  destruct (proj1 (proj2 (run_stops_at_limit_or_exhaustion false fresh))
                  ran log_ran (waterfall ran) run_returned)
    as (_ & Hiff & Hnone & _).
  split; [reflexivity |]. split; [reflexivity |]. split.
  - exact (proj1 Hiff eq_refl).
  - exact (Hnone eq_refl).
Defined.

(** C5 on the table: after the scripted run, which found two blocks, a
    second run is refused. *)
Lemma run_is_refused_after_blocks_were_found_on_sales :
  wf_blocks (waterfall ran) <> [] /\
  run true ran = (ran, [], inl AssertionError).
Proof.
  assert (Hfound : wf_blocks (waterfall ran) <> []) by (vm_compute; discriminate).
  split; [exact Hfound |].
  exact (proj1 (proj2 run_is_refused_after_blocks_were_found)
               false true fresh ran log_ran (waterfall ran) run_returned Hfound).
Defined.

(** C5 as stated does not hold: when the first run finds no block, here
    because the strategy is exhausted at once, the first run returns and the
    second run returns too. *)
Lemma second_run_accepted_after_empty_run :
  exists s1 out1 w1 s2 out2 w2,
    @run _ _ exhausted false fresh = (s1, out1, inr w1) /\
    @run _ _ exhausted false s1 = (s2, out2, inr w2).
Proof.
  exists fresh, [LogNoBlock 0], (waterfall fresh).
  exists fresh, [LogNoBlock 0], (waterfall fresh).
  split; vm_compute; reflexivity.
Qed.

(** C7 on the table: once Region=EU is applied, Region has one value left
    and is dropped; Product is kept. *)
Lemma no_singleton_dimension_is_tracked_on_sales :
  dims fresh = ["Region"; "Product"] /\
  dims after_eu = ["Product"] /\
  no_singleton_dimension after_eu.
Proof.
  split; [reflexivity |]. split; [vm_compute; reflexivity |].
  exact (proj1 (proj2 (proj2 no_singleton_dimension_is_tracked))
               eu Discovered 0%Z fresh after_eu log_eu applied_eu).
Defined.

(** C8 on the table: the two pre-selected key-sets are logged under -2 and
    -1 and saved in the order supplied, the second on the residual of the
    first. *)
Lemma preselected_blocks_in_order_on_sales :
  logged_indices log_built = [(-2)%Z; (-1)%Z] /\
  map sb_keys (pre_selected_blocks built)
  = [Some [("Region", "EU")]; Some [("Product", "Widgets")]] /\
  map sb_contrib_bps (pre_selected_blocks built) = [(-50)%float; (-14)%float] /\
  blocks built = [].
Proof.
  destruct (proj1 preselected_blocks_in_order preselected facts log_built built
                  constructor_returned)
    as (Hidx & Hchain & Hkeys & _ & _ & Hnone).
  split; [exact Hidx |]. split; [exact Hkeys |]. split; [| exact Hnone].
  rewrite Hchain. vm_compute. reflexivity.
Defined.

(** C6, on an object whose mode is not the delete-matched-rows mode: the
    correction step raises, but what it raises is the [TypeError] of calling
    [NotImplemented], not a [NotImplementedError], and its message does not
    name the mode. *)
Theorem unimplemented_mode_raises_TypeError :
  correct_mode other_mode = "MUL" /\
  correct_facts (make_block other_mode [("Region", "EU")] "MIX") other_mode
  = (other_mode, [], inl (TypeError "'NotImplementedType' object is not callable")) /\
  (forall msg,
      snd (correct_facts (make_block other_mode [("Region", "EU")] "MIX") other_mode)
      <> inl (NotImplementedError msg)) /\
  String.index 0 "MUL" "'NotImplementedType' object is not callable" = None /\
  String.index 0 "MUL" (not_implemented_message (correct_mode other_mode)) = Some 18%nat.
Proof.
  split; [reflexivity |]. split; [vm_compute; reflexivity |].
  split; [intros msg; vm_compute; discriminate |].
  split; vm_compute; reflexivity.
Qed.

(** ** Further properties of the orchestrator *)

Section MoreProperties.

Context {T : Tables} {C : Collaborators} {St : Strategy}.

Lemma filter_all {A} (l : list A) : filter (fun _ => true) l = l.
Proof. induction l as [| x l IH]; [reflexivity |]. simpl. now rewrite IH. Qed.

Lemma filter_twice {A} (f g : A -> bool) (l : list A) :
  filter g (filter f l) = filter (fun x => f x && g x) l.
Proof.
  induction l as [| x l IH]; [reflexivity |]. simpl.
  destruct (f x); simpl; [destruct (g x) |]; now rewrite IH.
Qed.

(** What a sequence of applied blocks never touches, and what it does to the
    tracked dimensions. *)
Lemma applied_preserved (s s' : BaseAlgorithm) (steps : list Step) :
  applied s steps s' ->
  params s' = params s /\
  saved_global_block s' = saved_global_block s /\
  correct_mode s' = correct_mode s /\
  exists keep, dims s' = filter keep (dims s).
Proof.
  induction 1 as [s | s b blist index s1 out steps s2 Ha _ IH].
  - repeat split. exists (fun _ => true). now rewrite filter_all.
  - destruct IH as (Hp & Hg & Hm & keep & Hd).
    pose proof (apply_and_save_block_fields _ _ _ _ _ _ Ha)
      as (_ & Hp1 & Hg1 & Hm1 & _).
    apply apply_and_save_block_ok in Ha as (_ & Hs1 & _).
    repeat split; try congruence.
    assert (Hd1 : exists keep1, dims s1 = filter keep1 (dims s)).
    { rewrite Hs1. eexists. destruct blist; reflexivity. }
    destruct Hd1 as (keep1 & Hd1).
    exists (fun x => keep1 x && keep x). now rewrite Hd, Hd1, filter_twice.
Qed.

(** The steps chain: each one starts from the global aggregate the previous
    one installed, and both revenues of every step are strictly positive. *)
Lemma applied_chain (s s' : BaseAlgorithm) (steps : list Step) :
  applied s steps s' ->
  map fst steps ++ [global_block s'] = global_block s :: map snd steps /\
  Forall (fun st => (0 <? cur_revenue (fst st))%float = true /\
                    (0 <? cur_revenue (snd st))%float = true) steps.
Proof.
  induction 1 as [s | s b blist index s1 out steps s2 Ha _ IH];
    [split; [reflexivity | constructor] |].
  destruct IH as (Hchain & Hpos).
  pose proof (apply_and_save_block_fields _ _ _ _ _ _ Ha)
    as (_ & _ & _ & _ & _ & Hgb & _).
  apply apply_and_save_block_ok in Ha as (Hc & _ & _).
  apply correct_facts_inv in Hc as (_ & _ & _ & _ & Hrev & _).
  unfold revenue_positive in Hrev. apply andb_prop in Hrev as [H1 H2].
  split.
  - cbn [map fst snd app]. now rewrite Hchain.
  - constructor; [| assumption]. cbn [fst snd]. rewrite Hgb. auto.
Qed.

(** Whatever its outcome, the loop leaves the object as a sequence of
    complete steps left it: one per appended block, and fewer than indices
    when it raised. *)
Lemma run_loop_applied (lf : bool) (indices : list Z) :
  forall (s s' : BaseAlgorithm) out r,
    run_loop lf indices s = (s', out, r) ->
    exists steps added,
      applied s steps s' /\
      blocks s' = blocks s ++ added /\
      List.length added = List.length steps /\
      (List.length steps <= List.length indices)%nat /\
      (forall e, r = inl e -> (List.length steps < List.length indices)%nat).
Proof.
  induction indices as [| i rest IH]; intros s s' out r H.
  - inversion H; subst. exists [], []. rewrite app_nil_r.
    split; [constructor |]. repeat split; auto. intros e He. discriminate.
  - rewrite run_loop_cons in H.
    destruct (find_next_block s i lf) as [lines [e | [b |]]].
    + inversion H; subst. exists [], []. rewrite app_nil_r.
      split; [constructor |]. repeat split; simpl; auto; lia.
    + destruct (__apply_and_save_block b Discovered i s)
        as [[s1 out1] [e | []]] eqn:Ha.
      * apply apply_and_save_block_fails in Ha as (_ & -> & _).
        inversion H; subst. exists [], []. rewrite app_nil_r.
        split; [constructor |]. repeat split; simpl; auto; lia.
      * destruct (run_loop lf rest s1) as [[s2 out2] r2] eqn:Hl.
        inversion H; subst. clear H.
        apply IH in Hl as (steps & added & Hst & Hadd & Hlen & Hle & Hfail).
        pose proof (apply_and_save_block_fields _ _ _ _ _ _ Ha) as (Hb & _).
        simpl in Hb.
        exists ((global_block s, global_block s1) :: steps), (saved b s :: added).
        split; [econstructor; eassumption |]. split; [| split; [| split]].
        -- rewrite Hadd, Hb, <- app_assoc. reflexivity.
        -- simpl. lia.
        -- simpl. lia.
        -- intros e He. apply Hfail in He. simpl. lia.
    + inversion H; subst. exists [], []. rewrite app_nil_r.
      split; [constructor |]. repeat split; simpl; auto; try lia.
Qed.

Lemma run_applied (lf : bool) (s s' : BaseAlgorithm) out r :
  run lf s = (s', out, r) ->
  exists steps added,
    applied s steps s' /\
    blocks s' = blocks s ++ added /\
    List.length added = List.length steps /\
    (List.length steps <= Z.to_nat (max_block_number (params s)))%nat /\
    (forall e, r = inl e -> blocks s = [] ->
               (List.length steps < Z.to_nat (max_block_number (params s)))%nat).
Proof.
  intros H. destruct (blocks s) as [| sb l] eqn:Hb.
  - destruct (run_accepted lf s Hb) as (cap & _ & _ & Hrun). rewrite Hrun in H.
    destruct (run_loop lf (py_range 0 (max_block_number (params s))) s)
      as [[s1 out1] r1] eqn:Hl.
    apply run_loop_applied in Hl as (steps & added & Hst & Hadd & Hlen & Hle & Hfail).
    rewrite py_range_length in Hle, Hfail. rewrite Hb in Hadd.
    exists steps, added.
    destruct r1 as [e | []]; inversion H; subst; repeat split; auto.
    + intros e' He' _. exact (Hfail _ eq_refl).
    + intros e' He'. discriminate.
  - rewrite run_refused in H by (rewrite Hb; discriminate).
    inversion H; subst. exists [], []. rewrite app_nil_r.
    split; [constructor |]. repeat split; simpl; auto; try lia.
    intros e _ Hnil. discriminate.
Qed.

Lemma init_applied (p : AlgorithmParameters) (d : DataFrame) out (s : BaseAlgorithm) :
  __init__ p d = (out, inr s) ->
  param_correct_mode p = "DEL" /\
  exists steps, applied (pruned (init_fields p d)) steps s.
Proof.
  intros H. split.
  - unfold __init__ in H.
    destruct (value_list_contains CORRECT_MODES (param_correct_mode p)) eqn:Hm;
      [| discriminate].
    unfold value_list_contains, CORRECT_MODES in Hm.
    cbn [existsb value_code] in Hm.
    rewrite orb_false_r in Hm. apply String.eqb_eq in Hm. now symmetry.
  - apply init_ok in H as (out2 & H & _).
    apply preselect_loop_ok in H as ((steps & Hst & _) & _). eauto.
Qed.

Lemma logged_blocks_app (a b : list Event) :
  logged_blocks (a ++ b) = logged_blocks a ++ logged_blocks b.
Proof.
  induction a as [| e a IH]; [reflexivity |].
  destruct e; simpl; now rewrite IH.
Qed.

Lemma logged_blocks_lines (lines : list string) :
  logged_blocks (map FileWrite lines) = [].
Proof. induction lines; [reflexivity | assumption]. Qed.

Lemma logged_blocks_pruning_log (s : BaseAlgorithm) :
  logged_blocks (pruning_log s) = [].
Proof.
  unfold pruning_log.
  induction (filter (fun x => negb (discriminates (df s) x)) (dims s));
    [reflexivity | assumption].
Qed.

Lemma logged_blocks_applied (b : AlgoBlock) (blist : BlockList) (index : Z)
      (s s' : BaseAlgorithm) out :
  __apply_and_save_block b blist index s = (s', out, inr tt) ->
  logged_blocks out = [(sb_contrib_bps (saved b s), sb_keys (saved b s))].
Proof.
  intros H. apply apply_and_save_block_ok in H as (_ & _ & ->).
  unfold diagnostic. cbn [logged_blocks].
  now rewrite logged_blocks_pruning_log.
Qed.

Lemma run_loop_logged (lf : bool) (indices : list Z) :
  forall (s s' : BaseAlgorithm) out,
    run_loop lf indices s = (s', out, inr tt) ->
    exists added,
      blocks s' = blocks s ++ added /\
      logged_blocks out = map (fun sb => (sb_contrib_bps sb, sb_keys sb)) added.
Proof.
  induction indices as [| i rest IH]; intros s s' out H.
  - inversion H; subst. exists []. now rewrite app_nil_r.
  - rewrite run_loop_cons in H.
    destruct (find_next_block s i lf) as [lines [e | [b |]]];
      [discriminate | |].
    + destruct (__apply_and_save_block b Discovered i s)
        as [[s1 out1] [e | []]] eqn:Ha; [discriminate |].
      destruct (run_loop lf rest s1) as [[s2 out2] r2] eqn:Hl.
      inversion H; subst. clear H.
      apply IH in Hl as (added & Hadd & Hlog).
      pose proof (logged_blocks_applied _ _ _ _ _ _ Ha) as Hone.
      pose proof (apply_and_save_block_fields _ _ _ _ _ _ Ha) as (Hb & _).
      simpl in Hb. exists (saved b s :: added). split.
      * rewrite Hadd, Hb, <- app_assoc. reflexivity.
      * now rewrite !logged_blocks_app, logged_blocks_lines, Hone, Hlog.
    + inversion H; subst. exists []. rewrite app_nil_r. split; [reflexivity |].
      now rewrite logged_blocks_app, logged_blocks_lines.
Qed.

Lemma preselect_loop_logged (ibs : list InputBlock) :
  forall (i : Z) (s s' : BaseAlgorithm) out,
    preselect_loop i ibs s = (s', out, inr tt) ->
    exists added,
      pre_selected_blocks s' = pre_selected_blocks s ++ added /\
      logged_blocks out = map (fun sb => (sb_contrib_bps sb, sb_keys sb)) added.
Proof.
  induction ibs as [| ib rest IH]; intros i s s' out H.
  - inversion H; subst. exists []. now rewrite app_nil_r.
  - rewrite preselect_loop_cons in H.
    destruct (__apply_and_save_block _ PreSelected (i + 1) s)
      as [[s1 out1] [e | []]] eqn:Ha; [discriminate |].
    destruct (preselect_loop (i + 1) rest s1) as [[s2 out2] r] eqn:Hl.
    inversion H; subst. clear H.
    apply IH in Hl as (added & Hadd & Hlog).
    pose proof (logged_blocks_applied _ _ _ _ _ _ Ha) as Hone.
    pose proof (apply_and_save_block_fields _ _ _ _ _ _ Ha) as (Hb & _).
    simpl in Hb. eexists (_ :: added). split.
    + rewrite Hadd, Hb, <- app_assoc. reflexivity.
    + now rewrite logged_blocks_app, Hone, Hlog.
Qed.

Lemma filter_idempotent {A} (f : A -> bool) (l : list A) :
  filter f (filter f l) = filter f l.
Proof.
  rewrite filter_twice. apply filter_ext. intros x. now destruct (f x).
Qed.

Lemma filter_complement {A} (f : A -> bool) (l : list A) :
  filter (fun x => negb (f x)) (filter f l) = [].
Proof.
  rewrite filter_twice. induction l as [| x l IH]; [reflexivity |].
  simpl. now destruct (f x).
Qed.

Lemma applied_last_positive (s s' : BaseAlgorithm) (steps : list Step) :
  applied s steps s' ->
  steps <> [] ->
  (0 <? cur_revenue (global_block s'))%float = true.
Proof.
  induction 1 as [s | s b blist index s1 out steps s2 Ha Hrest IH];
    [contradiction |].
  intros _. destruct steps as [| st steps].
  - inversion Hrest; subst.
    assert (Hst : applied s [(global_block s, global_block s2)] s2)
      by (econstructor; [eassumption | constructor]).
    apply applied_chain in Hst as (_ & Hpos).
    inversion Hpos as [| ? ? [_ Hnew] _]; subst. exact Hnew.
  - apply IH. discriminate.
Qed.

Lemma caption_lines_eq (lf : bool) (s : BaseAlgorithm) :
  write_caption lf s = (s, caption_lines lf s, inr tt) /\
  logged_blocks (caption_lines lf s) = [] /\
  caption_lines lf s
  = match lf, log_file_caption s with
    | true, Some c => if str_truthy c then [FileWrite (c ++ newline)%string] else []
    | _, _ => []
    end.
Proof.
  unfold caption_lines, write_caption, bind, get.
  destruct lf, (log_file_caption s) as [c |]; simpl; auto.
  destruct (str_truthy c); simpl; auto.
Qed.

Lemma run_unfold (lf : bool) (s : BaseAlgorithm) :
  blocks s = [] ->
  run lf s =
    match run_loop lf (py_range 0 (max_block_number (params s))) s with
    | (s', out, inl e) => (s', caption_lines lf s ++ out, inl e)
    | (s', out, inr _) => (s', caption_lines lf s ++ out, inr (waterfall s'))
    end.
Proof.
  intros H. destruct (caption_lines_eq lf s) as (Hcap & _).
  unfold run, bind, get. rewrite H. simpl. rewrite Hcap.
  destruct (run_loop lf (py_range 0 (max_block_number (params s))) s)
    as [[s' out] [e | []]]; simpl; [reflexivity |].
  unfold ret. now rewrite app_nil_r.
Qed.

(** *** What the result reports *)

(** X1.  When the constructor has returned an object and [run] on it
    returns, the result carries the title and the dimension list of the
    parameters (the list as given, not the pruned one), the snapshot of the
    global aggregate of the table the constructor was given (not of the
    residual), the pre-selected blocks as the constructor left them, and the
    discovered blocks. *)
Theorem waterfall_reports_the_initial_aggregate
        (p : AlgorithmParameters) (d : DataFrame) out (s : BaseAlgorithm)
        (lf : bool) (s' : BaseAlgorithm) out' (w : Waterfall) :
  __init__ p d = (out, inr s) ->
  run lf s = (s', out', inr w) ->
  wf_title w = waterfall_title p /\
  wf_dims w = input_dims p /\
  wf_global_block w = from_block (new_AlgoBlock d (profit_measure p) None None None) /\
  wf_first_blocks w = pre_selected_blocks s /\
  wf_blocks w = blocks s'.
Proof.
  intros Hinit Hrun.
  apply init_applied in Hinit as (_ & steps & Hst).
  apply applied_preserved in Hst as (Hp & Hg & _).
  cbn [pruned init_fields set_dims params saved_global_block] in Hp, Hg.
  apply run_ok in Hrun as (_ & -> & cap & out1 & _ & _ & _ & Hl).
  apply run_loop_any in Hl as (_ & Hpre & Hp' & Hg' & _).
  cbn [waterfall wf_title wf_dims wf_global_block wf_first_blocks wf_blocks].
  rewrite Hp', Hg', Hp, Hg. auto.
Qed.

(** X2.  The tracked dimensions only ever shrink: after the constructor they
    are a selection, in order, of the dimensions of the parameters, and
    after apply-and-save or [run], whatever the outcome, a selection, in
    order, of the dimensions tracked before. *)
Theorem tracked_dimensions_only_shrink :
  (forall (p : AlgorithmParameters) (d : DataFrame) out (s : BaseAlgorithm),
      __init__ p d = (out, inr s) ->
      exists keep, dims s = filter keep (input_dims p)) /\
  (forall (b : AlgoBlock) (blist : BlockList) (index : Z)
          (s s' : BaseAlgorithm) out r,
      __apply_and_save_block b blist index s = (s', out, r) ->
      exists keep, dims s' = filter keep (dims s)) /\
  (forall lf (s s' : BaseAlgorithm) out r,
      run lf s = (s', out, r) ->
      exists keep, dims s' = filter keep (dims s)).
Proof.
  split; [| split].
  - intros p d out s H. apply init_applied in H as (_ & steps & Hst).
    apply applied_preserved in Hst as (_ & _ & _ & keep & Hd).
    cbn [pruned init_fields set_dims dims df] in Hd.
    rewrite filter_twice in Hd. eauto.
  - intros b blist index s s' out [e | []] H.
    + apply apply_and_save_block_fails in H as (_ & -> & _).
      exists (fun _ => true). now rewrite filter_all.
    + assert (Hst : applied s [(global_block s, global_block s')] s')
        by (econstructor; [eassumption | constructor]).
      now apply applied_preserved in Hst.
  - intros lf s s' out r H.
    apply run_applied in H as (steps & added & Hst & _).
    now apply applied_preserved in Hst.
Qed.

(** X3.  A [run] that raises leaves no block half applied.  Refused at the
    guard, it leaves the object untouched and emits nothing.  Otherwise the
    object is what the blocks applied before the failure left: each of them
    went through its whole correction and is in the discovered list, the
    block that failed is not, and fewer than [max_block_number] blocks are
    there. *)
Theorem failed_run_keeps_complete_steps
        (lf : bool) (s s' : BaseAlgorithm) out (e : PyExc) :
  run lf s = (s', out, inl e) ->
  (blocks s <> [] -> s' = s /\ out = [] /\ e = AssertionError) /\
  (blocks s = [] ->
   exists steps,
     applied s steps s' /\
     List.length (blocks s') = List.length steps /\
     (Z.of_nat (List.length steps) < max_block_number (params s))%Z).
Proof.
  intros H. split.
  - intros Hb. rewrite (run_refused lf s Hb) in H. inversion H; auto.
  - intros Hb. apply run_applied in H as (steps & added & Hst & Hadd & Hlen & _ & Hfail).
    exists steps. split; [assumption |]. rewrite Hadd, Hb. cbn [app].
    split; [assumption |]. specialize (Hfail e eq_refl Hb). lia.
Qed.

(** X4.  Applied blocks chain: the old global aggregate of each step is the
    new one of the step before, from the aggregate the sequence started with
    to the one it left, and the current revenue of both aggregates of every
    step is strictly positive.  So once [run] has appended a block, whatever
    its outcome, the current revenue of the residual is strictly positive. *)
Theorem steps_chain_over_positive_revenue :
  (forall (s s' : BaseAlgorithm) (steps : list Step),
      applied s steps s' ->
      map fst steps ++ [global_block s'] = global_block s :: map snd steps /\
      Forall (fun st => (0 <? cur_revenue (fst st))%float = true /\
                        (0 <? cur_revenue (snd st))%float = true) steps) /\
  (forall lf (s s' : BaseAlgorithm) out r,
      run lf s = (s', out, r) ->
      blocks s = [] -> blocks s' <> [] ->
      (0 <? cur_revenue (global_block s'))%float = true).
Proof.
  split; [exact applied_chain |].
  intros lf s s' out r H Hb Hne.
  apply run_applied in H as (steps & added & Hst & Hadd & Hlen & _).
  rewrite Hb in Hadd. cbn [app] in Hadd. rewrite Hadd in Hne.
  apply (applied_last_positive _ _ _ Hst).
  destruct steps; [| discriminate]. destruct added; [contradiction | discriminate].
Qed.

(** X5.  An object the constructor has built is in the delete-matched-rows
    mode, and [run] leaves it so, whatever its outcome: on such an object a
    correction step that raises raises [AssertionError], so the branch of
    the other modes is never taken. *)
Theorem constructed_objects_are_in_delete_mode
        (p : AlgorithmParameters) (d : DataFrame) out (s : BaseAlgorithm) :
  __init__ p d = (out, inr s) ->
  correct_mode s = "DEL" /\
  (forall (b : AlgoBlock) s1 out1 e,
      correct_facts b s = (s1, out1, inl e) -> e = AssertionError) /\
  (forall lf (s' : BaseAlgorithm) out' r,
      run lf s = (s', out', r) ->
      correct_mode s' = "DEL" /\
      forall (b : AlgoBlock) s1 out1 e,
        correct_facts b s' = (s1, out1, inl e) -> e = AssertionError).
Proof.
  intros H. apply init_applied in H as (Hmode & steps & Hst).
  apply applied_preserved in Hst as (_ & _ & Hm & _).
  cbn [pruned init_fields set_dims correct_mode] in Hm. rewrite Hmode in Hm.
  assert (Hraise : forall s0 : BaseAlgorithm,
             correct_mode s0 = "DEL" ->
             forall (b : AlgoBlock) s1 out1 e,
               correct_facts b s0 = (s1, out1, inl e) -> e = AssertionError).
  { intros s0 H0 b s1 out1 e Hc. rewrite (correct_facts_DEL b s0 H0) in Hc.
    destruct (parent_is b (global_block s0) && conserved b s0 && revenue_positive b s0);
      inversion Hc; reflexivity. }
  split; [assumption |]. split; [now apply Hraise |].
  intros lf s' out' r Hrun.
  apply run_applied in Hrun as (steps' & added & Hst' & _).
  apply applied_preserved in Hst' as (_ & _ & Hm' & _).
  rewrite Hm in Hm'. split; [assumption | now apply Hraise].
Qed.

(** X6.  The block diagnostics and the saved blocks tell the same story:
    when the constructor returns, the scaled contributions and key-sets it
    logged are those of the pre-selected blocks, in order; when [run]
    returns, those it logged are those of the blocks of the result, in
    order. *)
Theorem diagnostics_match_saved_blocks :
  (forall (p : AlgorithmParameters) (d : DataFrame) out (s : BaseAlgorithm),
      __init__ p d = (out, inr s) ->
      logged_blocks out
      = map (fun sb => (sb_contrib_bps sb, sb_keys sb)) (pre_selected_blocks s)) /\
  (forall lf (s s' : BaseAlgorithm) out (w : Waterfall),
      run lf s = (s', out, inr w) ->
      logged_blocks out
      = map (fun sb => (sb_contrib_bps sb, sb_keys sb)) (wf_blocks w)).
Proof.
  split.
  - intros p d out s H. apply init_ok in H as (out2 & H & ->).
    apply preselect_loop_logged in H as (added & Hadd & Hlog).
    cbn [pruned init_fields set_dims pre_selected_blocks app] in Hadd.
    now rewrite logged_blocks_app, logged_blocks_pruning_log, Hadd, Hlog.
  - intros lf s s' out w H.
    pose proof (run_ok _ _ _ _ _ H) as (Hb & _).
    rewrite (run_unfold lf s Hb) in H.
    destruct (run_loop lf (py_range 0 (max_block_number (params s))) s)
      as [[s1 out1] [e | []]] eqn:Hl; inversion H; subst.
    apply run_loop_logged in Hl as (added & Hadd & Hlog).
    rewrite Hb in Hadd. cbn [app] in Hadd.
    destruct (caption_lines_eq lf s) as (_ & Hcap & _).
    cbn [waterfall wf_blocks]. now rewrite Hadd, logged_blocks_app, Hcap, Hlog.
Qed.

(** *** Edges of [run] and of the pruning *)

(** X8.  With [max_block_number] zero or negative, a [run] that passes the
    guard visits no index: the strategy is not consulted, the object is
    untouched, only the caption is written, and the result has no
    discovered block. *)
Theorem run_without_budget_finds_nothing (lf : bool) (s : BaseAlgorithm) :
  blocks s = [] ->
  (max_block_number (params s) <= 0)%Z ->
  run lf s = (s, caption_lines lf s, inr (waterfall s)) /\
  wf_blocks (waterfall s) = [].
Proof.
  intros Hb Hn. split; [| exact Hb].
  rewrite (run_unfold lf s Hb). unfold py_range.
  replace (Z.to_nat (max_block_number (params s) - 0)) with 0%nat by lia.
  cbn [seq map run_loop]. unfold ret. now rewrite app_nil_r.
Qed.

(** X9.  The caption comes first and once: whatever the outcome of the
    loop, what a [run] that passed the guard has emitted is the caption
    line, when there are a log file and a caption that is not empty, and
    nothing otherwise, followed by what the loop emitted. *)
Theorem caption_precedes_the_loop (lf : bool) (s : BaseAlgorithm) :
  blocks s = [] ->
  snd (fst (run lf s))
  = match lf, log_file_caption s with
    | true, Some c => if str_truthy c then [FileWrite (c ++ newline)%string] else []
    | _, _ => []
    end
    ++ snd (fst (run_loop lf (py_range 0 (max_block_number (params s))) s)).
Proof.
  intros Hb. rewrite (run_unfold lf s Hb).
  destruct (caption_lines_eq lf s) as (_ & _ & <-).
  destruct (run_loop lf (py_range 0 (max_block_number (params s))) s)
    as [[s' out] [e | []]]; reflexivity.
Qed.

(** X10.  Pruning right after a pruning changes nothing and logs nothing:
    so does a pruning right after a block was applied, since applying ends
    with one. *)
Theorem pruning_twice_is_pruning_once :
  (forall (s s1 : BaseAlgorithm) out1 r1,
      __remove_unnecessary_dimensions s = (s1, out1, r1) ->
      __remove_unnecessary_dimensions s1 = (s1, [], inr tt)) /\
  (forall (b : AlgoBlock) (blist : BlockList) (index : Z)
          (s s1 : BaseAlgorithm) out1,
      __apply_and_save_block b blist index s = (s1, out1, inr tt) ->
      __remove_unnecessary_dimensions s1 = (s1, [], inr tt)).
Proof.
  assert (Hagain : forall s : BaseAlgorithm,
             __remove_unnecessary_dimensions (pruned s) = (pruned s, [], inr tt)).
  { intros s. rewrite remove_unnecessary_dimensions_eq.
    unfold pruned at 1, pruning_log. cbn [pruned set_dims dims df].
    rewrite filter_idempotent, filter_complement. reflexivity. }
  split.
  - intros s s1 out1 r1 H. rewrite remove_unnecessary_dimensions_eq in H.
    inversion H; subst. apply Hagain.
  - intros b blist index s s1 out1 H.
    apply apply_and_save_block_ok in H as (_ & -> & _). apply Hagain.
Qed.

(** *** What can be raised *)

Lemma apply_and_save_block_raises (b : AlgoBlock) (blist : BlockList) (index : Z)
      (s s' : BaseAlgorithm) out e :
  correct_mode s = "DEL" ->
  __apply_and_save_block b blist index s = (s', out, inl e) ->
  e = AssertionError /\ s' = s /\ logged_indices out = [index].
Proof.
  intros Hmode H. apply apply_and_save_block_fails in H as (Hc & -> & ->).
  rewrite (correct_facts_DEL b s Hmode) in Hc.
  destruct (parent_is b (global_block s) && conserved b s && revenue_positive b s);
    inversion Hc. auto.
Qed.


Lemma run_loop_raises (lf : bool) (indices : list Z) :
  forall (s s' : BaseAlgorithm) out e,
    correct_mode s = "DEL" ->
    run_loop lf indices s = (s', out, inl e) ->
    e = AssertionError \/
    exists i, In i indices /\ snd (find_next_block s' i lf) = inl e.
Proof.
  induction indices as [| i rest IH]; intros s s' out e Hmode H; [discriminate |].
  rewrite run_loop_cons in H.
  destruct (find_next_block s i lf) as [lines [e0 | [b |]]] eqn:Hf.
  - inversion H; subst. right. exists i. split; [now left |]. now rewrite Hf.
  - destruct (__apply_and_save_block b Discovered i s)
      as [[s1 out1] [e1 | []]] eqn:Ha.
    + inversion H; subst.
      apply (apply_and_save_block_raises _ _ _ _ _ _ _ Hmode) in Ha as (-> & _).
      now left.
    + destruct (run_loop lf rest s1) as [[s2 out2] r2] eqn:Hl.
      inversion H; subst. clear H.
      pose proof (apply_and_save_block_fields _ _ _ _ _ _ Ha)
        as (_ & _ & _ & Hm1 & _).
      rewrite Hmode in Hm1.
      apply (IH _ _ _ _ Hm1) in Hl as [-> | (j & Hj & Hraise)]; [now left |].
      right. exists j. split; [now right | assumption].
  - discriminate.
Qed.


(** X16.  On an object in the delete-matched-rows mode, what [run] raises
    is [AssertionError] or what the strategy raised when it was asked for a
    block on the object as the run left it: with a strategy that raises
    nothing, [run] raises nothing but [AssertionError]. *)
Theorem run_raises_assertion_or_strategy_errors
        (lf : bool) (s s' : BaseAlgorithm) out (e : PyExc) :
  correct_mode s = "DEL" ->
  run lf s = (s', out, inl e) ->
  e = AssertionError \/
  exists i, (0 <= i < max_block_number (params s))%Z /\
            snd (find_next_block s' i lf) = inl e.
Proof.
  intros Hmode H. destruct (blocks s) as [| sb l] eqn:Hb.
  - rewrite (run_unfold lf s Hb) in H.
    destruct (run_loop lf (py_range 0 (max_block_number (params s))) s)
      as [[s1 out1] [e1 | []]] eqn:Hl; inversion H; subst.
    apply (run_loop_raises _ _ _ _ _ _ Hmode) in Hl as [-> | (i & Hi & Hraise)];
      [now left |].
    right. exists i. split; [| assumption].
    unfold py_range in Hi. apply in_map_iff in Hi as (k & <- & Hk).
    apply in_seq in Hk. lia.
  - rewrite run_refused in H by (rewrite Hb; discriminate).
    inversion H. now left.
Qed.

End MoreProperties.

Section BaseClass.

Context {T : Tables} {C : Collaborators}.

(** X7.  On the base class itself, whose [find_next_block] is
    [raise NotImplemented()], a [run] that passes the guard with a positive
    [max_block_number] raises the [TypeError] of calling [NotImplemented] at
    the first index: the object is untouched and nothing is logged or
    written, a log file being there or not. *)
Theorem run_on_the_base_class_raises (lf : bool) (s : BaseAlgorithm) :
  blocks s = [] ->
  (0 < max_block_number (params s))%Z ->
  run (St := base_class) lf s
  = (s, [], inl (TypeError "'NotImplementedType' object is not callable")).
Proof.
  intros Hb Hn. rewrite (run_unfold (St := base_class) lf s Hb).
  destruct (py_range_pos _ Hn) as (rest & ->).
  rewrite run_loop_cons. cbn [find_next_block base_class map app].
  destruct (caption_lines_eq (St := base_class) lf s) as (_ & _ & ->).
  cbn [log_file_caption base_class]. now destruct lf.
Qed.

End BaseClass.

(** ** Properties of the configuration *)

Section ConfigurationProperties.

Context {T : Tables} {C : Collaborators} {Ms : Measures} {Sz : Serializer}.

Lemma dict_get_set_same {A} (k : string) (v : A) (d : list (string * A)) :
  dict_get k (dict_set k v d) = Some v.
Proof.
  induction d as [| [k' v'] d IH]; cbn [dict_set dict_get].
  - now rewrite String.eqb_refl.
  - destruct (String.eqb k' k) eqn:E; cbn [dict_get].
    + now rewrite String.eqb_refl.
    + now rewrite E.
Qed.

Lemma dict_get_set_other {A} (k k0 : string) (v : A) (d : list (string * A)) :
  k0 <> k -> dict_get k (dict_set k0 v d) = dict_get k d.
Proof.
  intros Hne. induction d as [| [k' v'] d IH]; cbn [dict_set dict_get].
  - apply String.eqb_neq in Hne. now rewrite Hne.
  - destruct (String.eqb k' k0) eqn:E; cbn [dict_get].
    + apply String.eqb_eq in E. subst k'.
      apply String.eqb_neq in Hne. now rewrite Hne.
    + destruct (String.eqb k' k); [reflexivity | assumption].
Qed.

Lemma dict_get_absent {A} (k : string) (d : list (string * A)) :
  ~ In k (map fst d) -> dict_get k d = None.
Proof.
  induction d as [| [k' v'] d IH]; [reflexivity |]. cbn [map fst In dict_get].
  intros H. destruct (String.eqb_spec k' k) as [-> | Hne]; [tauto |].
  apply IH. tauto.
Qed.

Lemma to_json_items_empty_key {V J} (convert : V -> J) (d : list (string * V)) :
  forall jo, In EmptyString (map fst d) -> to_json_items convert d jo = inl IndexError.
Proof.
  induction d as [| [k v] d IH]; intros jo H; [contradiction |].
  cbn [to_json_items]. destruct k as [| c k]; [reflexivity |].
  cbn [String.get]. destruct H as [H | H]; [discriminate |].
  destruct (negb (Ascii.eqb c (Ascii.ascii_of_nat 95))); now apply IH.
Qed.

Lemma to_json_items_lookup {V J} (convert : V -> J) (d : list (string * V)) :
  forall jo0,
    ~ In EmptyString (map fst d) -> NoDup (map fst d) ->
    exists jo,
      to_json_items convert d jo0 = inr jo /\
      forall k, dict_get k jo
                = match dict_get k d with
                  | Some v => if is_private k then dict_get k jo0 else Some (convert v)
                  | None => dict_get k jo0
                  end.
Proof.
  induction d as [| [k0 v0] d IH]; intros jo0 Hne Hnd.
  - exists jo0. split; reflexivity.
  - cbn [map fst] in Hne, Hnd. inversion Hnd as [| ? ? Hfresh Hnd']; subst.
    assert (Hne' : ~ In EmptyString (map fst d)) by (intros H; apply Hne; now right).
    destruct k0 as [| c k0]; [exfalso; apply Hne; now left |].
    cbn [to_json_items String.get].
    destruct (Ascii.eqb c (Ascii.ascii_of_nat 95)) eqn:Ec; cbn [negb].
    + destruct (IH jo0 Hne' Hnd') as (jo & Hjo & Hget).
      exists jo. split; [assumption |]. intros k. rewrite Hget. cbn [dict_get].
      destruct (String.eqb_spec (String c k0) k) as [<- | Hk]; [| reflexivity].
      rewrite (dict_get_absent _ _ Hfresh).
      unfold is_private. cbn [String.get]. now rewrite Ec.
    + destruct (IH (dict_set (String c k0) (convert v0) jo0) Hne' Hnd')
        as (jo & Hjo & Hget).
      exists jo. split; [assumption |]. intros k. rewrite Hget. cbn [dict_get].
      destruct (String.eqb_spec (String c k0) k) as [<- | Hk].
      * rewrite (dict_get_absent _ _ Hfresh), dict_get_set_same.
        unfold is_private. cbn [String.get]. now rewrite Ec.
      * rewrite (dict_get_set_other _ _ _ _ Hk). reflexivity.
Qed.

Lemma substring_prefix (a t : string) :
  substring 0 (String.length a) (a ++ t) = a.
Proof.
  induction a as [| c a IH]; cbn [String.length append substring].
  - now destruct t.
  - now rewrite IH.
Qed.

Lemma value_list_contains_ALGO_NAMES (x : string) :
  value_list_contains ALGO_NAMES x = true <-> x = "TD" \/ x = "REP".
Proof.
  unfold value_list_contains, ALGO_NAMES. cbn [existsb value_code].
  rewrite orb_false_r, orb_true_iff, !String.eqb_eq. intuition.
Qed.

Lemma value_list_contains_CORRECT_MODES (x : string) :
  value_list_contains CORRECT_MODES x = true <-> x = "DEL".
Proof.
  unfold value_list_contains, CORRECT_MODES. cbn [existsb value_code].
  rewrite orb_false_r, String.eqb_eq. intuition.
Qed.

(** X11.  An [AlgorithmParameters] object exists only if its margin type is
    a known one, its correction mode is the delete-matched-rows mode and
    its algorithm is top-down or reproduce.  It stores its arguments as
    given, [max_block_number] being 10 when left out, and derives the
    measure fields and the profit measure from the margin type. *)
Theorem configuration_is_validated
        (ip : InputParameters) (alg : string) (pre : list InputBlock)
        (title : string) (rb : option ReproduceBlocks)
        (td : option TopDownParameters) (mb : option Z) (mode : option string)
        (o : Configuration) :
  new_AlgorithmParameters ip alg pre title rb td mb mode = inr o ->
  margin_type_known (cfg_margin_type o) = true /\
  cfg_correct_mode o = "DEL" /\
  (cfg_algorithm o = "TD" \/ cfg_algorithm o = "REP") /\
  cfg_input_parameters o = ip /\
  cfg_algorithm o = alg /\
  cfg_pre_selected_blocks o = pre /\
  cfg_waterfall_title o = title /\
  cfg_reproduce_blocks o = rb /\
  cfg_top_down_parameters o = td /\
  cfg_max_block_number o = match mb with Some n => n | None => 10%Z end /\
  cfg_meas_fields o = all_measure_fields (margin_type ip) /\
  cfg_profit_measure o = measures_profit_measure (margin_type ip).
Proof.
  unfold new_AlgorithmParameters.
  destruct (margin_type_known (margin_type ip)) eqn:Hm; cbn [negb]; [| discriminate].
  destruct (value_list_contains CORRECT_MODES _) eqn:Hc; cbn [negb]; [| discriminate].
  destruct (value_list_contains ALGO_NAMES alg) eqn:Ha; cbn [negb]; [| discriminate].
  intros H. inversion H; subst. clear H.
  apply value_list_contains_CORRECT_MODES in Hc.
  apply value_list_contains_ALGO_NAMES in Ha.
  cbn. rewrite Hc. auto 15.
Qed.

(** X12.  The constructor checks in this order: an unknown margin type or
    an unknown correction mode fails the assertions, whatever the
    algorithm; only then an algorithm that is neither top-down nor
    reproduce raises [ValueError], whose message holds the name as given,
    between double quotes. *)
Theorem invalid_configuration_is_refused
        (ip : InputParameters) (alg : string) (pre : list InputBlock)
        (title : string) (rb : option ReproduceBlocks)
        (td : option TopDownParameters) (mb : option Z) (mode : option string) :
  (margin_type_known (margin_type ip) = false \/
   (exists m, mode = Some m /\ m <> "DEL") ->
   new_AlgorithmParameters ip alg pre title rb td mb mode
   = inl ConfigAssertionError) /\
  (margin_type_known (margin_type ip) = true ->
   mode = None \/ mode = Some "DEL" ->
   alg <> "TD" -> alg <> "REP" ->
   new_AlgorithmParameters ip alg pre title rb td mb mode
   = inl (ValueError (unknown_algorithm_message alg)) /\
   substring 20 (String.length alg) (unknown_algorithm_message alg) = alg).
Proof.
  split.
  - intros [Hm | (m & -> & Hmode)]; unfold new_AlgorithmParameters.
    + now rewrite Hm.
    + destruct (margin_type_known (margin_type ip)); cbn [negb]; [| reflexivity].
      destruct (value_list_contains CORRECT_MODES m) eqn:Hc; [| reflexivity].
      apply value_list_contains_CORRECT_MODES in Hc. contradiction.
  - intros Hm Hmode Htd Hrep. split.
    + unfold new_AlgorithmParameters. rewrite Hm. cbn [negb].
      replace (value_list_contains CORRECT_MODES _) with true
        by (destruct Hmode as [-> | ->]; reflexivity).
      cbn [negb].
      destruct (value_list_contains ALGO_NAMES alg) eqn:Ha; [| reflexivity].
      apply value_list_contains_ALGO_NAMES in Ha. tauto.
    + unfold unknown_algorithm_message, double_quote.
      cbn [append Ascii.ascii_of_nat substring].
      apply substring_prefix.
Qed.


(** X14.  [to_json_compatible] exports every attribute whose name does not
    start with an underscore, converted, and no other: looking a name up
    in the result gives the converted attribute, or nothing for a private
    or an absent name; an empty name makes it raise [IndexError].  On an
    object built by the constructor it does not raise and returns the eight
    public attributes, without [_meas_fields] and [_profit_measure]. *)
Theorem to_json_exports_public_attributes :
  (forall (V J : Type) (convert : V -> J) (d : list (string * V)),
      (In EmptyString (map fst d) ->
       to_json_items convert d [] = inl IndexError) /\
      (~ In EmptyString (map fst d) -> NoDup (map fst d) ->
       exists jo,
         to_json_items convert d [] = inr jo /\
         forall k, dict_get k jo
                   = if is_private k then None
                     else option_map convert (dict_get k d))) /\
  (forall o : Configuration,
      to_json_compatible o
      = inr [ ("input_parameters",
               utils_to_json_compatible (AttrInput (cfg_input_parameters o)));
              ("algorithm", utils_to_json_compatible (AttrStr (cfg_algorithm o)));
              ("pre_selected_blocks",
               utils_to_json_compatible (AttrBlocks (cfg_pre_selected_blocks o)));
              ("waterfall_title",
               utils_to_json_compatible (AttrStr (cfg_waterfall_title o)));
              ("reproduce_blocks",
               utils_to_json_compatible (AttrReproduce (cfg_reproduce_blocks o)));
              ("max_block_number",
               utils_to_json_compatible (AttrInt (cfg_max_block_number o)));
              ("correct_mode",
               utils_to_json_compatible (AttrStr (cfg_correct_mode o)));
              ("top_down_parameters",
               utils_to_json_compatible (AttrTopDown (cfg_top_down_parameters o))) ]).
Proof.
  split; [| reflexivity].
  intros V J convert d. split.
  - apply to_json_items_empty_key.
  - intros Hne Hnd.
    destruct (to_json_items_lookup convert d [] Hne Hnd) as (jo & Hjo & Hget).
    exists jo. split; [assumption |]. intros k. rewrite Hget. cbn [dict_get].
    destruct (dict_get k d); destruct (is_private k); reflexivity.
Qed.

End ConfigurationProperties.

(** ** The further properties on the concrete table *)

Import Catalog.

Lemma fresh_constructed : __init__ (parameters [] 10 "DEL") facts = ([], inr fresh).
Proof. vm_compute. reflexivity. Qed.

Lemma spoiled_run_raised :
  run (St := spoiled) false fresh = (stopped, log_stopped, inl AssertionError).
Proof. vm_compute. reflexivity. Qed.

Lemma top_down_accepted :
  new_AlgorithmParameters gross "TD" [] "Sales" None None None None = inr top_down.
Proof. vm_compute. reflexivity. Qed.

(** X1 on the table: after the scripted run the result still reports the
    aggregate of the four rows, 1,000,000 of current revenue, and both
    dimensions. *)
Lemma waterfall_reports_the_initial_aggregate_on_sales :
  wf_dims (waterfall ran) = ["Region"; "Product"] /\
  sb_cur_revenue (wf_global_block (waterfall ran)) = 1000000%float /\
  cur_revenue (global_block ran) = 300000%float.
Proof.
  destruct (waterfall_reports_the_initial_aggregate
              (parameters [] 10 "DEL") facts [] fresh false ran log_ran
              (waterfall ran) fresh_constructed run_returned)
    as (_ & Hdims & Hglobal & _).
  split; [exact Hdims |]. split; [| vm_compute; reflexivity].
  rewrite Hglobal. vm_compute. reflexivity.
Defined.

(** X2 on the table: the scripted run ends with no tracked dimension, a
    selection of the two it started with. *)
Lemma tracked_dimensions_only_shrink_on_sales :
  dims fresh = ["Region"; "Product"] /\
  dims ran = [] /\
  exists keep, dims ran = filter keep (dims fresh).
Proof.
  split; [reflexivity |]. split; [vm_compute; reflexivity |].
  exact (proj2 (proj2 tracked_dimensions_only_shrink)
               false fresh ran log_ran _ run_returned).
Defined.

(** X3 on the table: the spoiled run raises at its second block; Region=EU,
    its first, is kept whole. *)
Lemma failed_run_keeps_complete_steps_on_sales :
  blocks fresh = [] /\
  map sb_keys (blocks stopped) = [Some [("Region", "EU")]] /\
  exists steps,
    applied fresh steps stopped /\
    List.length (blocks stopped) = List.length steps.
Proof.
  split; [reflexivity |]. split; [vm_compute; reflexivity |].
  destruct (proj2 (failed_run_keeps_complete_steps (St := spoiled)
                     false fresh stopped log_stopped AssertionError
                     spoiled_run_raised) eq_refl)
    as (steps & Happlied & Hlen & _).
  exists steps. split; [exact Happlied | exact Hlen].
Defined.

(** X4 on the table: after the scripted run the residual has a current
    revenue of 300,000. *)
Lemma steps_chain_over_positive_revenue_on_sales :
  blocks fresh = [] /\
  blocks ran <> [] /\
  (0 <? cur_revenue (global_block ran))%float = true.
Proof.
  assert (Hfound : blocks ran <> []) by (vm_compute; discriminate).
  split; [reflexivity |]. split; [exact Hfound |].
  exact (proj2 steps_chain_over_positive_revenue
               false fresh ran log_ran _ run_returned eq_refl Hfound).
Defined.

(** X5 on the table: the object built on the four rows is in the mode DEL,
    and the forged block makes its correction raise [AssertionError]. *)
Lemma constructed_objects_are_in_delete_mode_on_sales :
  correct_mode fresh = "DEL" /\
  correct_mode ran = "DEL" /\
  snd (correct_facts forged fresh) = inl AssertionError.
Proof.
  destruct (constructed_objects_are_in_delete_mode
              (parameters [] 10 "DEL") facts [] fresh fresh_constructed)
    as (Hmode & _ & Hrun).
  split; [exact Hmode |]. split.
  - exact (proj1 (Hrun false ran log_ran _ run_returned)).
  - vm_compute. reflexivity.
Defined.

(** X6 on the table: the scripted run logged -50 for Region=EU and -14 for
    Product=Widgets, as saved. *)
Lemma diagnostics_match_saved_blocks_on_sales :
  logged_blocks log_ran
  = [ ((-50)%float, Some [("Region", "EU")]);
      ((-14)%float, Some [("Product", "Widgets")]) ] /\
  logged_blocks log_ran
  = map (fun sb => (sb_contrib_bps sb, sb_keys sb)) (blocks ran).
Proof.
  split; [vm_compute; reflexivity |].
  exact (proj2 diagnostics_match_saved_blocks
               false fresh ran log_ran (waterfall ran) run_returned).
Defined.

(** X7 on the table: [run] on the base class raises at index 0. *)
Lemma run_on_the_base_class_raises_on_sales :
  blocks fresh = [] /\
  (0 < max_block_number (params fresh))%Z /\
  run (St := base_class) true fresh
  = (fresh, [], inl (TypeError "'NotImplementedType' object is not callable")).
Proof.
  split; [reflexivity |]. split; [reflexivity |].
  exact (run_on_the_base_class_raises true fresh eq_refl eq_refl).
Defined.

(** X8 on the table: with a limit of zero the scripted strategy is not
    asked, although it has a block to propose. *)
Lemma run_without_budget_finds_nothing_on_sales :
  max_block_number (params idle) = 0%Z /\
  snd (find_next_block idle 0 false)
  = inr (Some (make_block idle [("Region", "EU")] "MIX")) /\
  run false idle = (idle, [], inr (waterfall idle)).
Proof.
  assert (Hle : (max_block_number (params idle) <= 0)%Z) by (cbv; discriminate).
  split; [reflexivity |]. split; [reflexivity |].
  exact (proj1 (run_without_budget_finds_nothing false idle eq_refl Hle)).
Defined.

(** X9 on the table: with a log file the captioned strategy has its caption
    written before the diagnostic of exhaustion; without one, it is not. *)
Lemma caption_precedes_the_loop_on_sales :
  snd (fst (run (St := captioned) true fresh))
  = [FileWrite ("Top-down" ++ newline)%string; LogNoBlock 0] /\
  snd (fst (run (St := captioned) false fresh)) = [LogNoBlock 0].
Proof.
  split.
  - rewrite (caption_precedes_the_loop (St := captioned) true fresh eq_refl).
    vm_compute. reflexivity.
  - rewrite (caption_precedes_the_loop (St := captioned) false fresh eq_refl).
    vm_compute. reflexivity.
Defined.

(** X10 on the table: once Region=EU is applied, Region is gone and a new
    pruning finds nothing to drop. *)
Lemma pruning_twice_is_pruning_once_on_sales :
  dims after_eu = ["Product"] /\
  __remove_unnecessary_dimensions after_eu = (after_eu, [], inr tt).
Proof.
  split; [vm_compute; reflexivity |].
  exact (proj2 pruning_twice_is_pruning_once
               eu Discovered 0%Z fresh after_eu log_eu applied_eu).
Defined.

(** X11 on the catalog: the top-down configuration with every default. *)
Lemma configuration_is_validated_on_catalog :
  cfg_correct_mode top_down = "DEL" /\
  cfg_max_block_number top_down = 10%Z /\
  cfg_meas_fields top_down = ["revenue"; "GROSS_profit"].
Proof.
  destruct (configuration_is_validated gross "TD" [] "Sales" None None None None
                                       top_down top_down_accepted)
    as (_ & Hmode & _ & _ & _ & _ & _ & _ & _ & Hmax & Hfields & _).
  split; [exact Hmode |]. split; [exact Hmax | exact Hfields].
Defined.

(** X12 on the catalog: the algorithm BOGUS is named by the error, and an
    unknown correction mode is refused before the algorithm is looked at. *)
Lemma invalid_configuration_is_refused_on_catalog :
  new_AlgorithmParameters gross "BOGUS" [] "Sales" None None None None
  = inl (ValueError (unknown_algorithm_message "BOGUS")) /\
  String.index 0 "BOGUS" (unknown_algorithm_message "BOGUS") = Some 20%nat /\
  new_AlgorithmParameters gross "BOGUS" [] "Sales" None None None (Some "MUL")
  = inl ConfigAssertionError.
Proof.
  destruct (invalid_configuration_is_refused gross "BOGUS" [] "Sales"
                                             None None None None)
    as (_ & Hvalue).
  destruct (invalid_configuration_is_refused gross "BOGUS" [] "Sales"
                                             None None None (Some "MUL"))
    as (Hassert & _).
  split; [| split].
  - refine (proj1 (Hvalue eq_refl (or_introl eq_refl) _ _)); discriminate.
  - vm_compute. reflexivity.
  - apply Hassert. right. exists "MUL". split; [reflexivity | discriminate].
Defined.


(** X14 on the catalog: the export of the top-down configuration has its
    title and no private attribute. *)
Lemma to_json_exports_public_attributes_on_catalog :
  exists jo,
    to_json_compatible top_down = inr jo /\
    dict_get "waterfall_title" jo = Some "Sales" /\
    dict_get "_meas_fields" jo = None /\
    dict_get "_profit_measure" jo = None.
Proof.
  assert (Hkeys : ~ In EmptyString (map fst (attributes top_down)))
    by (vm_compute; intuition discriminate).
  assert (Hnodup : NoDup (map fst (attributes top_down))).
  { vm_compute. repeat constructor; simpl; intuition discriminate. }
  destruct (proj2 (proj1 to_json_exports_public_attributes
                         _ _ utils_to_json_compatible (attributes top_down))
                  Hkeys Hnodup)
    as (jo & Hjo & Hget).
  exists jo. split; [exact Hjo |].
  split; [| split]; rewrite Hget; vm_compute; reflexivity.
Defined.



(** X16 on the table: the spoiled strategy raises nothing, and its run
    raises [AssertionError]. *)
Lemma run_raises_assertion_or_strategy_errors_on_sales :
  correct_mode fresh = "DEL" /\
  (AssertionError = AssertionError \/
   exists i, (0 <= i < max_block_number (params fresh))%Z /\
             snd (find_next_block (Strategy := spoiled) stopped i false)
             = inl AssertionError).
Proof.
  split; [reflexivity |].
  exact (run_raises_assertion_or_strategy_errors (St := spoiled)
           false fresh stopped log_stopped AssertionError eq_refl spoiled_run_raised).
Defined.
